(** * mbot: indicator engine, trend classifier, order sizer and execution loop

    A shallow embedding of [bot_core.py] and of the tables of [storage.py],
    as the bot writes them and as the dashboard reads them back, with the
    properties of the specification stated over it.

    Number model.  The order sizer is embedded on IEEE binary64
    ([Module Binary64]), the arithmetic the code runs on, and what the
    specification says of the quantities it returns is settled there.  In
    the indicators and in the execution engine a Python [float] is an exact
    rational of [Q]; NaN, which only arises inside the pandas pipelines, is
    [None], and equality of quantities is [==] of [Q].  The engine carries
    a rational copy of the sizer, of which it only uses the control flow:
    whether it raises, and the sign of what it returns.

    pandas.  The code pins no pandas; where its behaviour differs between
    pandas 2 and pandas 3 (the dtype that [fillna] leaves), the model takes
    the version as a parameter.

    Effects.  The loop body of [Bot.run] is a state-and-exception
    computation over a [World]: the bot's own fields, the sqlite ledger and
    the trace of requests sent to the exchange.  What the exchange and the
    ledger answer during one tick is an [Env]. *)

From Stdlib Require Import QArith Qround Qabs Lqa Lia ZArith Floats.
From stdpp Require Import gmap strings list sorting.

Set Warnings "-inexact-float".

(** ** Python scalars and exceptions *)

Module Py.

Inductive exn : Type :=
| BinanceAPIException (msg : string)
| BinanceRequestException (msg : string)
| ZeroDivisionError
| OverflowError
| ValueError
| IndexError
| RuntimeError (msg : string)
| Exception (msg : string).

Inductive result (A : Type) : Type :=
| Return (a : A)
| Raise (e : exn).

Arguments Return {A} a.
Arguments Raise {A} e.

(** The two classes named by the first [except] clause of [Bot.run]. *)
Definition is_binance (e : exn) : bool :=
  match e with
  | BinanceAPIException _ | BinanceRequestException _ => true
  | _ => false
  end.

Definition Qltb (x y : Q) : bool :=
  match (x ?= y)%Q with Lt => true | _ => false end.

(** [max(a, b)] and [min(a, b)]: the first argument wins a tie. *)
Definition max (a b : Q) : Q := if Qltb a b then b else a.
Definition min (a b : Q) : Q := if Qltb b a then b else a.

(** [x / y] on floats. *)
Definition truediv (x y : Q) : result Q :=
  if Qeq_bool y 0 then Raise ZeroDivisionError else Return (x / y)%Q.

(** [seq.iloc[-1]] / [seq[-1]]. *)
Definition iloc_last {A : Type} (l : list A) : result A :=
  match last l with
  | Some x => Return x
  | None => Raise IndexError
  end.

End Py.

Import Py.

(** ** Order sizer

    On rationals first, as the execution engine carries it: the control
    flow of the code with exact quotients and products.  Where rounding
    decides, the code's floats differ (the float quotient 0.3 / 0.1 floors
    to 2, and [math.floor] raises on a quotient that overflows); the
    binary64 version below has both. *)

(** The dict built by [symbol_filters]: filter type to the filter's numeric
    fields, already read through [float(...)]. *)
Abbreviation Filters := (gmap string (gmap string Q)).

(** [{f['filterType']: f for f in info['filters']}]: a later entry of the
    list replaces an earlier one of the same type. *)
Definition dict_of_filters (fs : list (string * gmap string Q)) : Filters :=
  foldl (λ (m : Filters) f, <[f.1 := f.2]> m) ∅ fs.

Definition round_step_size (quantity step_size : Q) : Q :=
  if Qle_bool step_size 0 then quantity
  else (inject_Z (Qfloor (quantity / step_size)) * step_size)%Q.

Definition lot_field (filters : Filters) (key : string) (dflt : Q) : Q :=
  default dflt (default ∅ (filters !! "LOT_SIZE") !! key).

Definition min_notional_of (filters : Filters) : Q :=
  default 0%Q (default ∅ (filters !! "MIN_NOTIONAL") !! "minNotional").

Definition conform_qty_and_notional (qty price : Q) (filters : Filters)
  : result Q :=
  let min_qty := lot_field filters "minQty" 0%Q in
  let max_qty := lot_field filters "maxQty" 1e12%Q in
  let step := lot_field filters "stepSize" 0.00000001%Q in
  let min_notional := min_notional_of filters in
  let qty := Py.max min_qty (Py.min qty max_qty) in
  let qty := round_step_size qty step in
  if Qltb (qty * price) min_notional then
    match truediv min_notional price with
    | Return r => Return (round_step_size (r * 1.01) step)
    | Raise e => Raise e
    end
  else Return qty.

(** Lines 204-207 of [Bot._compute_qty]: the quantity asked of
    [conform_qty_and_notional]. *)
Definition raw_qty (bal risk_pct max_pos price : Q) : Q :=
  let amount := (bal * risk_pct)%Q in
  let amount := if Qltb 0 max_pos then Py.min amount max_pos else amount in
  if Qltb 0 price then (amount / price)%Q else 0%Q.

(** The sizer of the specification: balance, risk fraction, cap, price and
    filters to the final quantity. *)
Definition order_sizer (bal risk_pct max_pos price : Q) (filters : Filters)
  : result Q :=
  conform_qty_and_notional (raw_qty bal risk_pct max_pos price) price filters.

(** *** The same three functions on IEEE binary64

    This is the arithmetic the code runs on, with [math.floor] raising on
    an infinity or a NaN; what the specification says of the quantities the
    sizer returns is settled here.  The rational version above is the one
    the execution engine is built on, where a quantity is only tested for
    its sign, recorded and passed on. *)

Module Binary64.

(** [math.floor]: a Python int, or an exception on an infinity or a NaN. *)
Definition floor (x : float) : result Z :=
  match Prim2SF x with
  | S754_zero _ => Return 0%Z
  | S754_finite s m e =>
      let n := if s then Z.neg m else Z.pos m in
      Return (if (0 <=? e)%Z then n * 2 ^ e else n / 2 ^ (- e))%Z
  | S754_infinity _ => Raise OverflowError
  | S754_nan => Raise ValueError
  end.

(** The int to float conversion of [int * float], to nearest even. *)
Definition of_int (z : Z) : float :=
  SF2Prim (binary_normalize prec emax z 0 false).

Definition truediv (x y : float) : result float :=
  if PrimFloat.eqb y 0 then Raise ZeroDivisionError
  else Return (PrimFloat.div x y).

Definition max (a b : float) : float := if PrimFloat.ltb a b then b else a.
Definition min (a b : float) : float := if PrimFloat.ltb b a then b else a.

Definition round_step_size (quantity step_size : float) : result float :=
  if PrimFloat.leb step_size 0 then Return quantity
  else match floor (PrimFloat.div quantity step_size) with
       | Return n => Return (PrimFloat.mul (of_int n) step_size)
       | Raise e => Raise e
       end.

Record lot : Type := Lot {
  minQty : float; maxQty : float; stepSize : float; minNotional : float }.

Definition conform_qty_and_notional (qty price : float) (f : lot)
  : result float :=
  let qty := max (minQty f) (min qty (maxQty f)) in
  match round_step_size qty (stepSize f) with
  | Raise e => Raise e
  | Return qty =>
      if PrimFloat.ltb (PrimFloat.mul qty price) (minNotional f) then
        match truediv (minNotional f) price with
        | Return r =>
            round_step_size (PrimFloat.mul r 1.01%float) (stepSize f)
        | Raise e => Raise e
        end
      else Return qty
  end.

Definition raw_qty (bal risk_pct max_pos price : float) : float :=
  let amount := PrimFloat.mul bal risk_pct in
  let amount :=
    if PrimFloat.ltb 0 max_pos then min amount max_pos else amount in
  if PrimFloat.ltb 0 price then PrimFloat.div amount price else 0%float.

Definition order_sizer (bal risk_pct max_pos price : float) (f : lot)
  : result float :=
  conform_qty_and_notional (raw_qty bal risk_pct max_pos price) price f.

(** The rational a float stands for; none for an infinity or a NaN. *)
Definition value (x : float) : option Q :=
  match Prim2SF x with
  | S754_zero _ => Some 0%Q
  | S754_finite s m e =>
      let n := if s then Z.neg m else Z.pos m in
      Some (if (0 <=? e)%Z then inject_Z (n * 2 ^ e)
            else n # Z.to_pos (2 ^ (- e)))
  | S754_infinity _ => None
  | S754_nan => None
  end.

(** The two quantities [conform_qty_and_notional] rounds to the step: the
    quantity asked for, clamped to the lot size, and the minimum notional
    with its 1% buffer. *)
Definition clamped (qty : float) (f : lot) : float :=
  max (minQty f) (min qty (maxQty f)).

Definition buffered (price : float) (f : lot) : float :=
  PrimFloat.mul (PrimFloat.div (minNotional f) price) 1.01%float.

End Binary64.

(** ** pandas columns *)

Module pd.

(** A float64 column; [None] is NaN. *)
Abbreviation Series := (list (option Q)).

Definition nan_free (l : list Q) : Series := Some <$> l.

Definition lift2 (f : Q → Q → Q) (x y : option Q) : option Q :=
  match x, y with
  | Some a, Some b => Some (f a b)
  | _, _ => None
  end.

(** A comparison with a NaN operand is [False]. *)
Definition cmp2 (f : Q → Q → bool) (x y : option Q) : bool :=
  match x, y with
  | Some a, Some b => f a b
  | _, _ => false
  end.

Definition shift {A : Type} (s : list (option A)) : list (option A) :=
  take (length s) (None :: s).

Definition fillna {A : Type} (v : A) (s : list (option A)) : list A :=
  default v <$> s.

Definition add (a b : Series) : Series := zip_with (lift2 Qplus) a b.
Definition sub (a b : Series) : Series := zip_with (lift2 Qminus) a b.
Definition neg (s : Series) : Series := option_map Qopp <$> s.
Definition abs (s : Series) : Series := option_map Qabs <$> s.
Definition scale (c : Q) (s : Series) : Series := option_map (Qmult c) <$> s.
Definition diff (s : Series) : Series := sub s (shift s).

(** Elementwise [/].  numpy answers a zero divisor with an infinity (NaN for
    0/0), which [Q] does not have: here it is NaN.  Every divisor in
    [bot_core.py] has first gone through [replace(0, nan)], except [1 + rs]
    in [rsi], which is at least 1. *)
Definition odiv (x y : option Q) : option Q :=
  match x, y with
  | Some a, Some b => if Qeq_bool b 0 then None else Some (a / b)%Q
  | _, _ => None
  end.
Definition div (a b : Series) : Series := zip_with odiv a b.

Definition gt (a b : Series) : list bool :=
  zip_with (cmp2 (λ x y, Qltb y x)) a b.
Definition lt (a b : Series) : list bool := zip_with (cmp2 Qltb) a b.
Definition gt_scalar (s : Series) (c : Q) : list bool :=
  (λ x, cmp2 (λ x y, Qltb y x) x (Some c)) <$> s.
Definition lt_scalar (s : Series) (c : Q) : list bool :=
  (λ x, cmp2 Qltb x (Some c)) <$> s.
Definition and (a b : list bool) : list bool := zip_with andb a b.
Definition invert (a : list bool) : list bool := negb <$> a.

(** The installed pandas; [bot_core.py] pins none.  Up to pandas 2,
    [fillna] downcasts the object column that [shift] leaves of a bool
    column back to bool; pandas 3 keeps it an object column of Python
    bools. *)
Inductive version : Type := pandas2 | pandas3.

(** A cell of an object column: a Python bool or int. *)
Inductive obj : Type :=
| PyBool (b : bool)
| PyInt (z : Z).

(** A column of truth values by dtype. *)
Inductive column : Type :=
| BoolCol (l : list bool)
| ObjCol (l : list obj).

(** [bool(x)], [int(x)], [~x] and [x & y] of Python: [~] of a bool is the
    int [-x - 1], [&] of two bools is a bool and any other [&] is the
    bitwise one on ints. *)
Definition truth (x : obj) : bool :=
  match x with
  | PyBool b => b
  | PyInt z => negb (z =? 0)%Z
  end.

Definition int_of (x : obj) : Z :=
  match x with
  | PyBool b => if b then 1%Z else 0%Z
  | PyInt z => z
  end.

Definition py_invert (x : obj) : obj := PyInt (- int_of x - 1).

Definition py_and (x y : obj) : obj :=
  match x, y with
  | PyBool a, PyBool b => PyBool (a && b)
  | _, _ => PyInt (Z.land (int_of x) (int_of y))
  end.

(** [~col]: the logical not on a bool column, Python's [~] cell by cell on
    an object column. *)
Definition invert_col (c : column) : column :=
  match c with
  | BoolCol l => BoolCol (negb <$> l)
  | ObjCol l => ObjCol (py_invert <$> l)
  end.

(** [a & b] of two columns, with a bool result.  When the left column is
    bool, an object column on the right is first cast to bool, cell by
    cell; otherwise the cells are combined with Python's [&] and the result
    is cast to bool. *)
Definition logical_and (a b : column) : list bool :=
  match a, b with
  | BoolCol x, BoolCol y => zip_with andb x y
  | BoolCol x, ObjCol y => zip_with andb x (truth <$> y)
  | ObjCol x, BoolCol y => zip_with (λ p q, truth (py_and p (PyBool q))) x y
  | ObjCol x, ObjCol y => zip_with (λ p q, truth (py_and p q)) x y
  end.

(** [s.where(cond, other)]. *)
Definition where_ (s : Series) (cond : list bool) (other : Q) : Series :=
  zip_with (λ x (c : bool), if c then x else Some other) s cond.

(** [s.replace(old, nan)]. *)
Definition nan_if (old : Q) (x : option Q) : option Q :=
  match x with
  | Some q => if Qeq_bool q old then None else Some q
  | None => None
  end.
Definition replace_nan (old : Q) (s : Series) : Series := nan_if old <$> s.

Fixpoint sum (w : Series) : option Q :=
  match w with
  | [] => Some 0%Q
  | x :: w' => lift2 Qplus x (sum w')
  end.

(** [s.rolling(window=n).mean()]: [min_periods] is the window, so a bar has a
    value only when the [n] bars ending at it all have one. *)
Definition window (n : nat) (s : Series) (t : nat) : Series :=
  take n (drop (t + 1 - n) s).

Definition rolling_mean_at (n : nat) (s : Series) (t : nat) : option Q :=
  if (t + 1 <? n)%nat || (n =? 0)%nat then None
  else option_map (λ v, v / inject_Z (Z.of_nat n))%Q (sum (window n s t)).

Definition rolling_mean (n : nat) (s : Series) : Series :=
  rolling_mean_at n s <$> seq 0 (length s).

(** [s.ewm(span=span, adjust=False).mean()] on a column without NaN. *)
Fixpoint ewm_from (alpha prev : Q) (xs : list Q) : list Q :=
  match xs with
  | [] => []
  | x :: xs' =>
      let y := ((1 - alpha) * prev + alpha * x)%Q in
      y :: ewm_from alpha y xs'
  end.

Definition ewm_mean (span : nat) (xs : list Q) : list Q :=
  match xs with
  | [] => []
  | x :: xs' => x :: ewm_from (2 / (inject_Z (Z.of_nat span) + 1))%Q x xs'
  end.

(** [max] of two cells of a row with [skipna]. *)
Definition omax (x y : option Q) : option Q :=
  match x, y with
  | Some a, Some b => Some (if Qltb a b then b else a)
  | Some a, None => Some a
  | None, y => y
  end.

(** [pd.concat([a, b, c], axis=1).max(axis=1)]. *)
Definition max3 (a b c : Series) : Series :=
  zip_with omax (zip_with omax a b) c.

End pd.

(** ** Indicators *)

Definition ema (series : list Q) (length : nat) : list Q :=
  pd.ewm_mean length series.

Definition rsi_gain (series : list Q) (length : nat) : pd.Series :=
  let delta := pd.diff (pd.nan_free series) in
  pd.rolling_mean length (pd.where_ delta (pd.gt_scalar delta 0) 0).

Definition rsi_loss (series : list Q) (length : nat) : pd.Series :=
  let delta := pd.diff (pd.nan_free series) in
  pd.rolling_mean length (pd.neg (pd.where_ delta (pd.lt_scalar delta 0) 0)).

(** [100 - (100 / (1 + rs))] on one cell. *)
Definition rsi_formula (rs : option Q) : option Q :=
  pd.lift2 Qminus (Some 100%Q)
    (pd.odiv (Some 100%Q) (pd.lift2 Qplus (Some 1%Q) rs)).

Definition rsi (series : list Q) (length : nat) : list Q :=
  let gain := rsi_gain series length in
  let loss := rsi_loss series length in
  let rs := pd.div gain (pd.replace_nan 0 loss) in
  let rsi_val := rsi_formula <$> rs in
  pd.fillna 50%Q rsi_val.

Definition dmi_adx (high low close : list Q) (length smoothing : nat)
  : list Q * list Q * list Q :=
  let high := pd.nan_free high in
  let low := pd.nan_free low in
  let prev_close := pd.shift (pd.nan_free close) in
  let tr := pd.max3 (pd.abs (pd.sub high low))
                    (pd.abs (pd.sub high prev_close))
                    (pd.abs (pd.sub low prev_close)) in
  let up_move := pd.diff high in
  let down_move := pd.neg (pd.diff low) in
  let plus_dm :=
    pd.where_ up_move
      (pd.and (pd.gt up_move down_move) (pd.gt_scalar up_move 0)) 0 in
  let minus_dm :=
    pd.where_ down_move
      (pd.and (pd.gt down_move up_move) (pd.gt_scalar down_move 0)) 0 in
  let atr := pd.rolling_mean length tr in
  let plus_di :=
    pd.scale 100 (pd.div (pd.rolling_mean length plus_dm)
                         (pd.replace_nan 0 atr)) in
  let minus_di :=
    pd.scale 100 (pd.div (pd.rolling_mean length minus_dm)
                         (pd.replace_nan 0 atr)) in
  let dx :=
    pd.scale 100 (pd.div (pd.abs (pd.sub plus_di minus_di))
                         (pd.replace_nan 0 (pd.add plus_di minus_di))) in
  let adx := pd.rolling_mean smoothing dx in
  (pd.fillna 0%Q plus_di, pd.fillna 0%Q minus_di, pd.fillna 0%Q adx).

(** ** Market data and the trend-phase classifier *)

(** One row of the frame built by [fetch_klines_df]; times are epoch
    milliseconds.  The columns the engine never reads are left out. *)
Record Bar : Type := mkBar {
  open_time : Z;
  open : Q;
  high : Q;
  low : Q;
  close : Q;
  volume : Q;
  close_time : Z }.

Module TrendPhases.

Record t : Type := mk {
  ema_short : nat;
  ema_long : nat;
  rsi_len : nat;
  adx_len : nat;
  adx_smooth : nat;
  adx_thr : Q;
  rsi_up : Q;
  rsi_down : Q }.

Definition __init__ : t := mk 20 50 14 14 14 25%Q 55%Q 35%Q.

(** The columns [compute] adds to the frame. *)
Record Frame : Type := mkFrame {
  bars : list Bar;
  emaShort : list Q;
  emaLong : list Q;
  col_rsi : list Q;
  plusDI : list Q;
  minusDI : list Q;
  adxVal : list Q;
  strongUpTrend : list bool;
  strongDownTrend : list bool;
  debutHausse : list bool;
  debutBaisse : list bool;
  finHausse : list bool;
  finBaisse : list bool }.

(** [col.shift(1).fillna(False)] on a bool column: [shift] leaves an object
    column with a NaN in front, [fillna] fills it, and the result is a bool
    column again only where pandas downcasts. *)
Definition shift_fillna (v : pd.version) (col : list bool) : pd.column :=
  let filled := pd.fillna false (pd.shift (Some <$> col)) in
  match v with
  | pd.pandas2 => pd.BoolCol filled
  | pd.pandas3 => pd.ObjCol (pd.PyBool <$> filled)
  end.

Definition compute (v : pd.version) (self : t) (df : list Bar) : Frame :=
  let c := close <$> df in
  let emaShort := ema c (ema_short self) in
  let emaLong := ema c (ema_long self) in
  let rsi := rsi c (rsi_len self) in
  let '(plusDI, minusDI, adxVal) :=
    dmi_adx (high <$> df) (low <$> df) c (adx_len self) (adx_smooth self) in
  let strongUpTrend :=
    pd.and (pd.and (pd.and (pd.and
      (pd.gt (pd.nan_free emaShort) (pd.nan_free emaLong))
      (pd.gt (pd.nan_free plusDI) (pd.nan_free minusDI)))
      (pd.gt_scalar (pd.nan_free rsi) (rsi_up self)))
      (pd.gt_scalar (pd.nan_free adxVal) (adx_thr self)))
      (pd.gt (pd.nan_free emaShort) (pd.shift (pd.nan_free emaShort))) in
  let strongDownTrend :=
    pd.and (pd.and (pd.and (pd.and
      (pd.lt (pd.nan_free emaShort) (pd.nan_free emaLong))
      (pd.gt (pd.nan_free minusDI) (pd.nan_free plusDI)))
      (pd.lt_scalar (pd.nan_free rsi) (rsi_down self)))
      (pd.gt_scalar (pd.nan_free adxVal) (adx_thr self)))
      (pd.lt (pd.nan_free emaShort) (pd.shift (pd.nan_free emaShort))) in
  mkFrame df emaShort emaLong rsi plusDI minusDI adxVal
    strongUpTrend strongDownTrend
    (pd.logical_and (pd.BoolCol strongUpTrend)
       (pd.invert_col (shift_fillna v strongUpTrend)))
    (pd.logical_and (pd.BoolCol strongDownTrend)
       (pd.invert_col (shift_fillna v strongDownTrend)))
    (pd.logical_and (shift_fillna v strongUpTrend)
       (pd.invert_col (pd.BoolCol strongUpTrend)))
    (pd.logical_and (shift_fillna v strongDownTrend)
       (pd.invert_col (pd.BoolCol strongDownTrend))).

(** What [Bot.run] reads from [calc.iloc[-1]]. *)
Record Row : Type := mkRow {
  row_close : Q;
  row_debutHausse : bool;
  row_debutBaisse : bool;
  row_finHausse : bool;
  row_finBaisse : bool }.

Definition iloc_last (calc : Frame) : result Row :=
  match Py.iloc_last (close <$> bars calc),
        Py.iloc_last (debutHausse calc), Py.iloc_last (debutBaisse calc),
        Py.iloc_last (finHausse calc), Py.iloc_last (finBaisse calc) with
  | Return c, Return dh, Return db, Return fh, Return fb =>
      Return (mkRow c dh db fh fb)
  | _, _, _, _, _ => Raise IndexError
  end.

End TrendPhases.

(** ** The ledger of [storage.py] *)

Inductive Side : Type := FLAT | LONG.

(** The text of a log line, kept as the values its f-string formats. *)
Inductive message : Type :=
| msg_start (testnet dry_run : bool)
| msg_init_failed (e : exn)
| msg_debug (close_time : Z) (price : Q)
    (debutHausse debutBaisse finHausse finBaisse : bool)
    (side : Side) (qty entry : Q)
| msg_binance (e : exn)
| msg_loop (e : exn)
| msg_get_account_failed (e : exn)
| msg_dry_run (side : string) (qty : Q)
| msg_order (side : string) (resp : string)
| msg_stopped.

Module storage.

(** A row of table [trades]; the id and the wall-clock [ts] are left out. *)
Record trade : Type := mkTrade {
  symbol : string;
  side : string;
  qty : Q;
  price : Q;
  notional : Q;
  pnl : option Q;
  extra : string }.

(** A row of table [positions], keyed by symbol. *)
Record position : Type := mkPosition {
  pos_side : string;
  pos_qty : Q;
  pos_entry_price : Q }.

Record log_row : Type := mkLog {
  log_symbol : option string;
  level : string;
  text : message }.

(** Tables in insertion order. *)
Record db : Type := mkDb {
  trades : list trade;
  positions : gmap string position;
  logs : list log_row }.

(** [log] always commits: a log sink that fails inside an [except] clause
    of [Bot.run] would end the thread, which is outside this model. *)
Definition log (symbol : option string) (level : string) (m : message)
    (d : db) : db :=
  mkDb (trades d) (positions d) (logs d ++ [mkLog symbol level m]).

Definition upsert_position (symbol side : string) (qty entry_price : Q)
    (d : db) : db :=
  mkDb (trades d) (<[symbol := mkPosition side qty entry_price]> (positions d))
       (logs d).

Definition clear_position (symbol : string) (d : db) : db :=
  mkDb (trades d) (delete symbol (positions d)) (logs d).

Definition insert_trade (symbol side : string) (qty price : Q)
    (pnl : option Q) (extra : string) (d : db) : db :=
  mkDb (trades d ++ [mkTrade symbol side qty price (qty * price)%Q pnl extra])
       (positions d) (logs d).

End storage.

(** ** The exchange client and one tick's answers *)

Inductive Request : Type :=
| GetKlines
| GetSymbolTicker
| GetAccount
| GetSymbolInfo
| CreateOrder (side : string) (quantity : Q).

(** What the outside world answers during one tick.  A call of the loop
    body is made at most once per tick, so one answer per call suffices.
    [get_account] is the [balances] list as (asset, free); [get_symbol_info]
    is [None] for an unknown symbol, else the [filters] list as (filterType,
    numeric fields).  A [Some e] in the last three fields makes the sqlite
    write raise [e] before its commit.  [pandas] is the pandas the bot runs
    on. *)
Record Env : Type := mkEnv {
  pandas : pd.version;
  get_klines : result (list Bar);
  get_symbol_ticker : result Q;
  get_account : result (list (string * Q));
  get_symbol_info : result (option (list (string * gmap string Q)));
  create_order : result string;
  insert_trade_raises : option exn;
  upsert_position_raises : option exn;
  clear_position_raises : option exn }.


(** ** The execution engine *)

Module Bot.

(** The fields of a [Bot] instance that the loop reads or writes. *)
Record t : Type := mk {
  symbol : string;
  interval : string;
  risk_pct : Q;
  max_pos : Q;
  testnet : bool;
  dry_run : bool;
  strat : TrendPhases.t;
  pos_side : Side;
  pos_qty : Q;
  entry_price : Q;
  last_close_time : option Z }.

Definition __init__ (symbol interval : string) (risk_pct max_pos : Q)
    (testnet dry_run : bool) : t :=
  mk symbol interval risk_pct max_pos testnet dry_run TrendPhases.__init__
     FLAT 0%Q 0%Q None.

Definition set_position (side : Side) (qty entry : Q) (b : t) : t :=
  mk (symbol b) (interval b) (risk_pct b) (max_pos b) (testnet b) (dry_run b)
     (strat b) side qty entry (last_close_time b).

Definition set_last_close_time (c : option Z) (b : t) : t :=
  mk (symbol b) (interval b) (risk_pct b) (max_pos b) (testnet b) (dry_run b)
     (strat b) (pos_side b) (pos_qty b) (entry_price b) c.

(** Everything a tick can change: the bot, the ledger, and the requests
    sent to the exchange so far. *)
Record World : Type := mkWorld {
  self : t;
  db : storage.db;
  requests : list Request }.

(** State and exceptions: the state reached when an exception is raised is
    kept, as in Python. *)
Definition M (A : Type) : Type := World → result A * World.

Definition ret {A : Type} (a : A) : M A := λ w, (Return a, w).

Definition raise {A : Type} (e : exn) : M A := λ w, (Raise e, w).

Definition bind {A B : Type} (m : M A) (k : A → M B) : M B :=
  λ w, match m w with
       | (Return a, w') => k a w'
       | (Raise e, w') => (Raise e, w')
       end.

Notation "'let*' x ':=' m 'in' k" := (bind m (λ x, k))
  (at level 10, x pattern, m at level 100, k at level 200).
Notation "m ';;' k" := (bind m (λ _, k))
  (at level 100, k at level 200, right associativity).

Definition try_except {A : Type} (body : M A) (handler : exn → M A) : M A :=
  λ w, match body w with
       | (Raise e, w') => handler e w'
       | r => r
       end.

Definition of_result {A : Type} (r : result A) : M A := λ w, (r, w).

Definition get_self : M t := λ w, (Return (self w), w).

Definition modify_self (f : t → t) : M unit :=
  λ w, (Return tt, mkWorld (f (self w)) (db w) (requests w)).

Definition modify_db (f : storage.db → storage.db) : M unit :=
  λ w, (Return tt, mkWorld (self w) (f (db w)) (requests w)).

(** A call of the binance client: the request is sent, then answered. *)
Definition call {A : Type} (r : Request) (answer : result A) : M A :=
  λ w, (answer, mkWorld (self w) (db w) (requests w ++ [r])).

(** A write to the ledger that may raise before committing. *)
Definition write (fault : option exn) (f : storage.db → storage.db)
  : M unit :=
  match fault with
  | Some e => raise e
  | None => modify_db f
  end.

Definition dblog (level : string) (m : message) : M unit :=
  let* b := get_self in
  modify_db (storage.log (Some (symbol b)) level m).

Definition fetch_klines_df (env : Env) : M (list Bar) :=
  call GetKlines (get_klines env).

Definition symbol_filters (env : Env) : M Filters :=
  let* info := call GetSymbolInfo (get_symbol_info env) in
  match info with
  | None => raise (RuntimeError "Symbole introuvable")
  | Some fs => ret (dict_of_filters fs)
  end.

Definition endswith (s suffix : string) : bool :=
  let n := String.length s in
  let m := String.length suffix in
  (m <=? n)%nat && String.eqb (String.substring (n - m) m s) suffix.

(** [s[-3:]]. *)
Definition last3 (s : string) : string :=
  String.substring (String.length s - 3) 3 s.

Definition free_of (quote : string) (balances : list (string * Q)) : Q :=
  match List.find (λ b, String.eqb b.1 quote) balances with
  | Some b => b.2
  | None => 0%Q
  end.

Definition _compute_qty (env : Env) (price : Q) : M Q :=
  let* b := get_self in
  let quote := if endswith (symbol b) "USDT" then "USDT"%string
               else last3 (symbol b) in
  let* bal :=
    try_except
      (let* acc := call GetAccount (get_account env) in
       ret (free_of quote acc))
      (λ e, dblog "ERROR" (msg_get_account_failed e) ;; ret 0%Q) in
  let* filt := symbol_filters env in
  of_result
    (conform_qty_and_notional
       (raw_qty bal (risk_pct b) (max_pos b) price) price filt).

Definition _buy_market (env : Env) (qty : Q) : M unit :=
  let* b := get_self in
  if dry_run b then dblog "INFO" (msg_dry_run "BUY" qty)
  else
    let* resp := call (CreateOrder "BUY" qty) (create_order env) in
    dblog "INFO" (msg_order "BUY" resp).

Definition _sell_market (env : Env) (qty : Q) : M unit :=
  let* b := get_self in
  if dry_run b then dblog "INFO" (msg_dry_run "SELL" qty)
  else
    let* resp := call (CreateOrder "SELL" qty) (create_order env) in
    dblog "INFO" (msg_order "SELL" resp).

Definition _set_long (env : Env) (qty price : Q) : M unit :=
  modify_self (set_position LONG qty price) ;;
  let* b := get_self in
  write (upsert_position_raises env)
        (storage.upsert_position (symbol b) "LONG" qty price).

Definition _set_flat (env : Env) : M unit :=
  modify_self (set_position FLAT 0%Q 0%Q) ;;
  let* b := get_self in
  write (clear_position_raises env) (storage.clear_position (symbol b)).

Definition insert_trade (env : Env) (side : string) (qty price : Q)
    (pnl : option Q) (extra : string) : M unit :=
  let* b := get_self in
  write (insert_trade_raises env)
        (storage.insert_trade (symbol b) side qty price pnl extra).

(** [self.last_close_time and nct <= self.last_close_time]. *)
Definition stale (last : option Z) (nct : Z) : bool :=
  match last with
  | Some l => (nct <=? l)%Z
  | None => false
  end.

(** The [try] block of the [while] loop, lines 141-179. *)
Definition loop_body (env : Env) : M unit :=
  let* new_df := fetch_klines_df env in
  let* nct := of_result (Py.iloc_last (close_time <$> new_df)) in
  let* b := get_self in
  if stale (last_close_time b) nct then ret tt
  else
    modify_self (set_last_close_time (Some nct)) ;;
    let calc := TrendPhases.compute (pandas env) (strat b) new_df in
    let* row := of_result (TrendPhases.iloc_last calc) in
    let price := TrendPhases.row_close row in
    let debutHausse := TrendPhases.row_debutHausse row in
    let debutBaisse := TrendPhases.row_debutBaisse row in
    let finHausse := TrendPhases.row_finHausse row in
    let finBaisse := TrendPhases.row_finBaisse row in
    dblog "DEBUG"
      (msg_debug nct price debutHausse debutBaisse finHausse finBaisse
         (pos_side b) (pos_qty b) (entry_price b)) ;;
    match pos_side b with
    | LONG =>
        if debutBaisse || finHausse then
          let qty := pos_qty b in
          (if Qltb 0 qty then
             _sell_market env qty ;;
             let pnl := ((price - entry_price b) * qty)%Q in
             insert_trade env "SELL" qty price (Some pnl) "exit"
           else ret tt) ;;
          _set_flat env
        else ret tt
    | FLAT =>
        if debutHausse then
          let* price_now := call GetSymbolTicker (get_symbol_ticker env) in
          let* qty := _compute_qty env price_now in
          if Qltb 0 qty then
            _buy_market env qty ;;
            insert_trade env "BUY" qty price_now None "entry" ;;
            _set_long env qty price_now
          else ret tt
        else ret tt
    end.

(** The two [except] clauses, lines 181-184. *)
Definition handler (e : exn) : M unit :=
  if is_binance e then dblog "ERROR" (msg_binance e)
  else dblog "ERROR" (msg_loop e).

(** One iteration of the [while] loop. *)
Definition tick (env : Env) : M unit := try_except (loop_body env) handler.

(** Lines 131-137: [true] when the loop is entered. *)
Definition boot (env : Env) : M bool :=
  let* b := get_self in
  dblog "INFO" (msg_start (testnet b) (dry_run b)) ;;
  try_except
    (let* df := fetch_klines_df env in
     let* c := of_result (Py.iloc_last (close_time <$> df)) in
     modify_self (set_last_close_time (Some c)) ;;
     ret true)
    (λ e, dblog "ERROR" (msg_init_failed e) ;; ret false).

Fixpoint loop (ticks : list Env) : M unit :=
  match ticks with
  | [] => ret tt
  | env :: rest => tick env ;; loop rest
  end.

(** [run], stopped after the ticks of [ticks]. *)
Definition run (start : Env) (ticks : list Env) : M unit :=
  let* entered := boot start in
  if entered : bool then loop ticks ;; dblog "INFO" msg_stopped
  else ret tt.

(** The world after a computation. *)
Definition exec {A : Type} (m : M A) (w : World) : World := (m w).2.

(** What a computation taking [w] to [w'] sent to the exchange, and the
    rows it added to table [trades]. *)
Definition sent (w w' : World) : list Request :=
  drop (length (requests w)) (requests w').

Definition recorded (w w' : World) : list storage.trade :=
  drop (length (storage.trades (db w))) (storage.trades (db w')).

Definition logged (w w' : World) : list storage.log_row :=
  drop (length (storage.logs (db w))) (storage.logs (db w')).

Definition is_order (r : Request) : bool :=
  match r with
  | CreateOrder _ _ => true
  | _ => false
  end.

(** The line a live run logs where a dry run logs [DRY_RUN side qty]. *)
Definition live_line (resp : string) (row : storage.log_row)
  : storage.log_row :=
  match storage.text row with
  | msg_dry_run side _ =>
      storage.mkLog (storage.log_symbol row) (storage.level row)
                    (msg_order side resp)
  | _ => row
  end.

(** The same bot with another [dry_run] flag. *)
Definition with_dry_run (d : bool) (w : World) : World :=
  let b := self w in
  mkWorld
    (mk (symbol b) (interval b) (risk_pct b) (max_pos b) (testnet b) d
        (strat b) (pos_side b) (pos_qty b) (entry_price b)
        (last_close_time b))
    (db w) (requests w).

(** The worlds between two iterations of the loop: the one in which the
    loop is entered, and the one after each tick. *)
Inductive observable (d0 : storage.db) : World → Prop :=
| observable_boot symbol interval risk_pct max_pos testnet dry_run env w :
    boot env
      (mkWorld (__init__ symbol interval risk_pct max_pos testnet dry_run)
               d0 [])
    = (Return true, w) →
    observable d0 w
| observable_tick env w :
    observable d0 w → observable d0 (exec (tick env) w).

End Bot.

(** ** Scenario data *)

Module Scenario.

(** [info['filters']] of a symbol, with the fields the sizer reads. *)
Definition filters (minQty maxQty stepSize minNotional : Q)
  : list (string * gmap string Q) :=
  [("LOT_SIZE"%string,
    <["minQty"%string := minQty]>
      (<["maxQty"%string := maxQty]> (<["stepSize"%string := stepSize]> ∅)));
   ("MIN_NOTIONAL"%string, <["minNotional"%string := minNotional]> ∅)].

(** Scenarios 3 and 4: only the step and the minimum notional are given. *)
Definition filters3 : Filters :=
  dict_of_filters
    [("LOT_SIZE"%string, <["stepSize"%string := 0.01%Q]> ∅);
     ("MIN_NOTIONAL"%string, <["minNotional"%string := 10%Q]> ∅)].

(** Filters of the shape the exchange publishes for a high-priced pair. *)
Definition filters_btc : Filters :=
  dict_of_filters (filters 0.00001 9000 0.00001 10).

(** A lot size whose minimum is not a multiple of its step. *)
Definition filters_odd : Filters :=
  dict_of_filters (filters 0.015 1000 0.01 0).

(** Bars of one minute; [bar i c] trades within one unit of its close. *)
Definition wide (i : Z) (c hi lo : Q) : Bar :=
  mkBar (i * 60000) c hi lo c 1%Q (i * 60000 + 59999).

Definition bar (i : Z) (c : Q) : Bar := wide i c (c + 1)%Q (c - 1)%Q.

(** [n] bars that close 2 higher each, from 60. *)
Definition rally (n : nat) : list Bar :=
  (λ i : nat, bar (Z.of_nat i) (60 + 2 * inject_Z (Z.of_nat i))%Q)
    <$> seq 0 n.

(** The window at start, then with a pull-back to 100 after the rally,
    then with a bar that closes at 110 after trading down to 50. *)
Definition df_boot : list Bar := rally 26.
Definition df_entry : list Bar := df_boot ++ [bar 26 100%Q].
Definition df_exit : list Bar := df_entry ++ [wide 27 110%Q 111%Q 50%Q].

(** Answers of a healthy exchange and ledger, on a pandas that downcasts. *)
Definition env_ok (df : list Bar) (price : Q) : Env :=
  mkEnv pd.pandas2 (Return df) (Return price)
        (Return [("BTC"%string, 0%Q); ("USDT"%string, 1000%Q)])
        (Return (Some (filters 0.0001 1000 0.0001 10)))
        (Return "FILLED"%string) None None None.

Definition no_trades : storage.db := storage.mkDb [] ∅ [].

(** Scenario 2 of the specification: risk 0.1 of a balance of 1000 at a
    price of 100, then an exit on a bar closing at 110. *)
Definition w_init (dry_run : bool) : Bot.World :=
  Bot.mkWorld (Bot.__init__ "BTCUSDT" "1m" 0.1%Q 0%Q true dry_run)
              no_trades [].
Definition w_flat (dry_run : bool) : Bot.World :=
  Bot.exec (Bot.boot (env_ok df_boot 0%Q)) (w_init dry_run).
Definition w_long (dry_run : bool) : Bot.World :=
  Bot.exec (Bot.tick (env_ok df_entry 100%Q)) (w_flat dry_run).
Definition w_closed (dry_run : bool) : Bot.World :=
  Bot.exec (Bot.tick (env_ok df_exit 0%Q)) (w_long dry_run).



Definition env_order_rejected : Env :=
  mkEnv pd.pandas2 (Return df_entry) (Return 100%Q)
        (Return [("USDT"%string, 1000%Q)])
        (Return (Some (filters 0.0001 1000 0.0001 10)))
        (Raise (BinanceAPIException "insufficient balance")) None None None.

(** A live price of 0 on the entry tick. *)
Definition env_zero_price : Env := env_ok df_entry 0%Q.

End Scenario.

(** ** Statements of the specification that the code does not meet *)

Module AsStated.


(** The bump to the minimum notional, as section 8 words it: with a
    positive price, a clamped and step-rounded quantity worth less than the
    minimum notional is replaced by the buffered minimum notional rounded
    down to the step. *)
Definition bump (qty price : float) (f : Binary64.lot) : Prop :=
  PrimFloat.ltb 0 price = true →
  ∀ q0 : float,
    Binary64.round_step_size (Binary64.clamped qty f) (Binary64.stepSize f)
    = Return q0 →
    PrimFloat.ltb (PrimFloat.mul q0 price) (Binary64.minNotional f) = true →
    ∃ q : float,
      Binary64.conform_qty_and_notional qty price f = Return q
      ∧ Binary64.round_step_size (Binary64.buffered price f)
          (Binary64.stepSize f) = Return q.


(** Dry run and live run write the same trades and reach the same
    position, on every tick. *)
Definition dry_run_equivalent (env : Env) (w : Bot.World) : Prop :=
  let wd := Bot.exec (Bot.tick env) (Bot.with_dry_run true w) in
  let wl := Bot.exec (Bot.tick env) (Bot.with_dry_run false w) in
  storage.trades (Bot.db wd) = storage.trades (Bot.db wl)
  ∧ Bot.pos_side (Bot.self wd) = Bot.pos_side (Bot.self wl)
  ∧ Bot.pos_qty (Bot.self wd) = Bot.pos_qty (Bot.self wl)
  ∧ Bot.entry_price (Bot.self wd) = Bot.entry_price (Bot.self wl).

End AsStated.

(** ** Invariants of the loop *)

(** The position is FLAT with nothing held, or LONG with a positive
    quantity. *)
Definition Inv (b : Bot.t) : Prop :=
  (Bot.pos_side b = FLAT → Bot.pos_qty b = 0%Q)
  ∧ (Bot.pos_side b = LONG → (0 < Bot.pos_qty b)%Q).

Definition entry_record (sym : string) (q p : Q) : storage.trade :=
  storage.mkTrade sym "BUY" q p (q * p)%Q None "entry".

Definition exit_record (sym : string) (q entry p : Q) : storage.trade :=
  storage.mkTrade sym "SELL" q p (q * p)%Q (Some ((p - entry) * q)%Q) "exit".

(** The rows a run has added to table [trades], against the position it has
    reached: entries and exits alternate, an exit is for the quantity of
    the entry before it and is priced against that entry's price, and the
    position mirrors the last row. *)
Inductive ledger_ok (sym : string) : list storage.trade → Side → Q → Q → Prop :=
| ledger_nil : ledger_ok sym [] FLAT 0%Q 0%Q
| ledger_entry l q p :
    ledger_ok sym l FLAT 0%Q 0%Q → (0 < q)%Q →
    ledger_ok sym (l ++ [entry_record sym q p]) LONG q p
| ledger_exit l q p p2 :
    ledger_ok sym l LONG q p →
    ledger_ok sym (l ++ [exit_record sym q p p2]) FLAT 0%Q 0%Q.

(** Two bots hold the same position. *)
Definition same_position (b b' : Bot.t) : Prop :=
  Bot.pos_side b' = Bot.pos_side b ∧ Bot.pos_qty b' = Bot.pos_qty b
  ∧ Bot.entry_price b' = Bot.entry_price b.

(** The rows added since the start, against the position. *)
Definition paired (d0 : storage.db) (w : Bot.World) : Prop :=
  ∃ new,
    storage.trades (Bot.db w) = storage.trades d0 ++ new
    ∧ ledger_ok (Bot.symbol (Bot.self w)) new
        (Bot.pos_side (Bot.self w)) (Bot.pos_qty (Bot.self w))
        (Bot.entry_price (Bot.self w)).

(** The flag of the bar before [t], [False] when there is none. *)
Definition previous (col : list bool) (t : nat) : bool :=
  match t with
  | O => false
  | S t' => default false (col !! t')
  end.

(** The flag of a trend's first bar, as each pandas computes it: on an
    object column [~] gives -1 or -2, which are both true. *)
Definition begin_flag (v : pd.version) (now before : bool) : bool :=
  match v with
  | pd.pandas2 => now && negb before
  | pd.pandas3 => now
  end.

(** A cell that is NaN or not negative. *)
Definition nonneg_cell (x : option Q) : Prop := ∀ q, x = Some q → (0 <= q)%Q.

(** ** The columns of [dmi_adx] one by one *)

(** The local variables of [dmi_adx], each as a function of the inputs, so
    that a property can be stated for one column at a time. *)
Module dmi.

Definition tr (high low close : list Q) : pd.Series :=
  let prev_close := pd.shift (pd.nan_free close) in
  pd.max3 (pd.abs (pd.sub (pd.nan_free high) (pd.nan_free low)))
          (pd.abs (pd.sub (pd.nan_free high) prev_close))
          (pd.abs (pd.sub (pd.nan_free low) prev_close)).

Definition up_move (high : list Q) : pd.Series := pd.diff (pd.nan_free high).

Definition down_move (low : list Q) : pd.Series :=
  pd.neg (pd.diff (pd.nan_free low)).

Definition plus_dm (high low : list Q) : pd.Series :=
  pd.where_ (up_move high)
    (pd.and (pd.gt (up_move high) (down_move low))
            (pd.gt_scalar (up_move high) 0%Q)) 0%Q.

Definition minus_dm (high low : list Q) : pd.Series :=
  pd.where_ (down_move low)
    (pd.and (pd.gt (down_move low) (up_move high))
            (pd.gt_scalar (down_move low) 0%Q)) 0%Q.

Definition atr (high low close : list Q) (length : nat) : pd.Series :=
  pd.rolling_mean length (tr high low close).

Definition plus_di (high low close : list Q) (length : nat) : pd.Series :=
  pd.scale 100%Q
    (pd.div (pd.rolling_mean length (plus_dm high low))
            (pd.replace_nan 0%Q (atr high low close length))).

Definition minus_di (high low close : list Q) (length : nat) : pd.Series :=
  pd.scale 100%Q
    (pd.div (pd.rolling_mean length (minus_dm high low))
            (pd.replace_nan 0%Q (atr high low close length))).

Definition dx (high low close : list Q) (length : nat) : pd.Series :=
  pd.scale 100%Q
    (pd.div (pd.abs (pd.sub (plus_di high low close length)
                            (minus_di high low close length)))
            (pd.replace_nan 0%Q
               (pd.add (plus_di high low close length)
                       (minus_di high low close length)))).

Definition adx (high low close : list Q) (length smoothing : nat)
  : pd.Series :=
  pd.rolling_mean smoothing (dx high low close length).

End dmi.

(** A cell that is NaN or lies in [lo, hi]. *)
Definition cell_in (lo hi : Q) (x : option Q) : Prop :=
  ∀ q, x = Some q → (lo <= q <= hi)%Q.

(** ** Read side of the ledger *)

Module ledger.

(** [if symbol:] is false for [None] and for the empty string. *)
Definition truthy (symbol : option string) : option string :=
  match symbol with
  | Some s => if String.eqb s EmptyString then None else Some s
  | None => None
  end.

(** [fetch_trades]: the rows of the symbol, or all rows, newest first. *)
Definition fetch_trades (symbol : option string) (d : storage.db)
  : list storage.trade :=
  match truthy symbol with
  | Some s =>
      reverse (filter (λ t, storage.symbol t = s) (storage.trades d))
  | None => reverse (storage.trades d)
  end.

(** sqlite3 binds a Python int as a signed 64-bit integer and raises
    [OverflowError] on any other. *)
Definition int64 (z : Z) : bool := (- 2 ^ 63 <=? z)%Z && (z <? 2 ^ 63)%Z.

(** [LIMIT ?] of sqlite on a bound limit: a negative limit is no limit. *)
Definition limit_rows {A : Type} (limit : Z) (rows : list A) : list A :=
  if (limit <? 0)%Z then rows else take (Z.to_nat limit) rows.

(** The query of [fetch_logs] once its parameters are bound: the newest
    [limit] rows, of the symbol or of all; a row logged without a symbol
    matches no symbol. *)
Definition select_logs (symbol : option string) (limit : Z) (d : storage.db)
  : list storage.log_row :=
  match truthy symbol with
  | Some s =>
      limit_rows limit
        (reverse (filter (λ r, storage.log_symbol r = Some s)
                         (storage.logs d)))
  | None => limit_rows limit (reverse (storage.logs d))
  end.

(** [fetch_logs]: both branches bind [limit], so a limit that does not fit
    64 bits raises before any row is read. *)
Definition fetch_logs (symbol : option string) (limit : Z) (d : storage.db)
  : result (list storage.log_row) :=
  if int64 limit then Return (select_logs symbol limit d)
  else Raise OverflowError.

(** [fetch_positions]: every row with its key, ordered by symbol. *)
Definition by_symbol (a b : string * storage.position) : Prop :=
  String.leb a.1 b.1 = true.

#[global] Instance by_symbol_dec (a b : string * storage.position) :
  Decision (by_symbol a b) := decide (String.leb a.1 b.1 = true).

Definition fetch_positions (d : storage.db)
  : list (string * storage.position) :=
  merge_sort by_symbol (map_to_list (storage.positions d)).

End ledger.

(** The row of table [positions] that mirrors the position of the bot. *)
Definition mirrored (w : Bot.World) : Prop :=
  storage.positions (Bot.db w) !! Bot.symbol (Bot.self w)
  = match Bot.pos_side (Bot.self w) with
    | LONG =>
        Some (storage.mkPosition "LONG" (Bot.pos_qty (Bot.self w))
                                 (Bot.entry_price (Bot.self w)))
    | FLAT => None
    end.


(** The entry window of the scenario with one more rising bar: the strong
    uptrend that starts on bar 26 lasts through bar 27. *)
Definition df_trend : list Bar :=
  Scenario.df_entry ++ [Scenario.bar 27 104%Q].

(** Two more answers to the entry tick of the scenario: the exchange does
    not know the symbol; the ledger refuses the trade row. *)
Definition env_unknown_symbol : Env :=
  mkEnv pd.pandas2 (Return Scenario.df_entry) (Return 100%Q)
        (Return [("USDT"%string, 1000%Q)]) (Return None)
        (Return "FILLED"%string) None None None.


(** * Properties *)

(** ** Facts on the rational comparisons *)

Section QFacts.
Local Open Scope Q_scope.

Lemma Qltb_true (x y : Q) : Qltb x y = true ↔ x < y.
Proof.
  unfold Qltb. rewrite Qlt_alt. destruct (x ?= y); intuition congruence.
Qed.

Lemma Qltb_false (x y : Q) : Qltb x y = false ↔ y <= x.
Proof.
  split; intros H.
  - apply Qnot_lt_le. intros Hlt. apply Qltb_true in Hlt. congruence.
  - destruct (Qltb x y) eqn:E; [|reflexivity].
    apply Qltb_true in E. lra.
Qed.

End QFacts.

(** ** Order sizer on binary64 *)

Section Binary64Facts.
Import Binary64.

(** *** Comparisons of floats *)





(** [0 < p] excludes [p == 0] and [p <= 0]. *)
Lemma positive_nonzero (p : float) :
  PrimFloat.ltb 0 p = true → PrimFloat.eqb p 0 = false.
Proof.
  rewrite FloatAxioms.ltb_spec, FloatAxioms.eqb_spec. unfold SFltb, SFeqb.
  change (Prim2SF 0) with (S754_zero false).
  destruct (Prim2SF p) as [s|s| |s m e]; cbn; try discriminate;
    destruct s; intros; first [discriminate|reflexivity].
Qed.



(** *** [math.floor] is the floor of the float's value *)

Lemma floor_value (x : float) :
  match value x with
  | Some v => floor x = Return (Qfloor v)
  | None => floor x = Raise OverflowError ∨ floor x = Raise ValueError
  end.
Proof.
  unfold value, floor.
  destruct (Prim2SF x) as [s|s| |s m e]; auto.
  destruct (0 <=? e)%Z eqn:E.
  - rewrite Qfloor_Z. reflexivity.
  - apply Z.leb_gt in E. unfold Qfloor.
    rewrite Z2Pos.id by (apply Z.pow_pos_nonneg; lia). reflexivity.
Qed.

(** With a step that is not [<= 0], [round_step_size] multiplies the step
    by the floor of the float quotient, or raises when the quotient has no
    value. *)
Lemma round_step_size_value (q s : float) :
  PrimFloat.leb s 0 = false →
  match value (PrimFloat.div q s) with
  | Some v =>
      round_step_size q s = Return (PrimFloat.mul (of_int (Qfloor v)) s)
  | None =>
      round_step_size q s = Raise OverflowError
      ∨ round_step_size q s = Raise ValueError
  end.
Proof.
  intros Hs. unfold round_step_size. rewrite Hs.
  pose proof (floor_value (PrimFloat.div q s)) as H.
  destruct (value (PrimFloat.div q s)) as [v|].
  - rewrite H. reflexivity.
  - destruct H as [-> | ->]; auto.
Qed.

(** *** The quantity the sizer returns *)




(** Bounds the sizer does not keep.  Rounding to the step takes a quantity
    that is exactly minQty under it, because the float quotient 0.3 / 0.1
    is 2.9999999999999996; the bumped quantity is not clamped again; and
    the float notional of the order can exceed the budget. *)
Example sizer_below_min_qty :
  order_sizer 30 1 0 100 (Lot 0.3 1000 0.1 10) = Return 0.2%float
  ∧ PrimFloat.ltb 0.2 0.3 = true.
Proof. split; vm_compute; reflexivity. Qed.

Example sizer_above_max_qty :
  order_sizer 100 0.1 0 10 (Lot 0.5 1 0.5 100) = Return 10%float
  ∧ PrimFloat.ltb 1 10 = true.
Proof. split; vm_compute; reflexivity. Qed.

Example sizer_over_budget :
  ∃ q, order_sizer 7 1 0 50 (Lot 0 1e12 0.01 0) = Return q
       ∧ PrimFloat.ltb (PrimFloat.mul 7 1) (PrimFloat.mul q 50) = true.
Proof. eexists. split; vm_compute; reflexivity. Qed.

(** *** The bump to the minimum notional *)

(** C9, as the code has it.  With a positive price, when the clamped and
    step-rounded quantity is worth less than minNotional, the sizer turns
    to the buffered minimum notional [minNotional / price * 1.01]: it
    returns it as it is when the step is not positive, and otherwise the
    float product of the step and the floor of the float quotient by the
    step; it raises when that quotient is not finite.  The budget plays no
    part: for balance 25, risk 0.2, price 50, step 0.01, minNotional 10 the
    result is 0.20, worth 10.0, twice the budget of 5. *)
Theorem conform_bumps_to_min_notional :
  (∀ (qty price : float) (f : lot) (q0 : float),
     PrimFloat.ltb 0 price = true →
     round_step_size (clamped qty f) (stepSize f) = Return q0 →
     PrimFloat.ltb (PrimFloat.mul q0 price) (minNotional f) = true →
     if PrimFloat.leb (stepSize f) 0
     then conform_qty_and_notional qty price f = Return (buffered price f)
     else match value (PrimFloat.div (buffered price f) (stepSize f)) with
          | Some v =>
              conform_qty_and_notional qty price f
              = Return (PrimFloat.mul (of_int (Qfloor v)) (stepSize f))
          | None =>
              conform_qty_and_notional qty price f = Raise OverflowError
              ∨ conform_qty_and_notional qty price f = Raise ValueError
          end)
  ∧ order_sizer 25 0.2 0 50 (Lot 0 1e12 0.01 10) = Return 0.2%float
  ∧ PrimFloat.mul 0.2 50 = 10%float
  ∧ PrimFloat.ltb (PrimFloat.mul 25 0.2) (PrimFloat.mul 0.2 50) = true.
Proof.
  split; [|repeat split; vm_compute; reflexivity].
  intros qty price f q0 Hp Hq0 Hlt.
  unfold conform_qty_and_notional.
  change (max (minQty f) (min qty (maxQty f))) with (clamped qty f).
  rewrite Hq0, Hlt. unfold truediv. rewrite (positive_nonzero _ Hp).
  change (PrimFloat.mul (PrimFloat.div (minNotional f) price) 1.01)
    with (buffered price f).
  destruct (PrimFloat.leb (stepSize f) 0) eqn:Es.
  - unfold round_step_size. rewrite Es. reflexivity.
  - pose proof (round_step_size_value (buffered price f) (stepSize f) Es)
      as H.
    destruct (value _) as [v|]; [rewrite H; reflexivity|].
    destruct H as [-> | ->]; auto.
Qed.

(** The floor, not the nearest multiple: at a price of 48.5 the buffered
    minimum notional is 0.2082..., and the sizer returns 0.20. *)
Lemma conform_bumps_to_min_notional_witness :
  conform_qty_and_notional 0.1 48.5 (Lot 0 1e12 0.01 10) = Return 0.2%float.
Proof.
  pose proof (proj1 conform_bumps_to_min_notional 0.1%float 48.5%float
                (Lot 0 1e12 0.01 10) 0.1%float
                ltac:(vm_compute; reflexivity) ltac:(vm_compute; reflexivity)
                ltac:(vm_compute; reflexivity)) as H.
  replace (PrimFloat.leb (stepSize (Lot 0 1e12 0.01 10)) 0) with false in H
    by (vm_compute; reflexivity).
  destruct (value _) as [v|] eqn:E in H; vm_compute in E; [|discriminate].
  injection E as <-. rewrite H. vm_compute. reflexivity.
Defined.

(** C9, as stated, fails at a price so small that [minNotional / price]
    overflows: the sizer raises at [math.floor] and returns no quantity. *)
Lemma bump_counterexample :
  ¬ AsStated.bump (raw_qty 25 0.2 0 1e-320) 1e-320 (Lot 0 1e12 0.01 10).
Proof.
  intros H.
  destruct (H ltac:(vm_compute; reflexivity) 1e12%float
              ltac:(vm_compute; reflexivity) ltac:(vm_compute; reflexivity))
    as (q & E & _).
  vm_compute in E. discriminate.
Qed.

End Binary64Facts.

(** ** The sizer at a price that is not positive *)

Section SizerScenarios.
Local Open Scope Q_scope.

(** C3 on the code: with a live price of 0 and a minimum notional,
    [_compute_qty] raises at the division of line 65, the tick ends in the
    second [except] clause; on the sizer alone, a negative price yields a
    negative quantity, and without a minimum notional a price of 0 yields
    the rounded minQty, not 0. *)
Theorem compute_qty_nonpositive_price :
  (Bot._compute_qty Scenario.env_zero_price 0 (Scenario.w_flat true)).1
  = Raise ZeroDivisionError
  ∧ storage.text
      <$> last (storage.logs (Bot.db (Bot.exec (Bot.tick Scenario.env_zero_price)
                                                (Scenario.w_flat true))))
    = Some (msg_loop ZeroDivisionError)
  ∧ order_sizer 25 0.2 0 0 Scenario.filters_btc = Raise ZeroDivisionError
  ∧ order_sizer 25 0.2 0 (-1) Scenario.filters3
    = Return (inject_Z (-1010) * 0.01)
  ∧ order_sizer 25 0.2 0 0 Scenario.filters_odd = Return 0.01.
Proof. repeat split; vm_compute; reflexivity. Qed.

End SizerScenarios.

(** *** Replay on IEEE binary64 *)

Section Binary64Replay.
Import Binary64.

Example scenario1_binary64 :
  Binary64.order_sizer 1000 0.1 0 100 (Lot 0.0001 1000 0.0001 10)
  = Return 1%float.
Proof. vm_compute. reflexivity. Qed.

Example scenario3_binary64 :
  Binary64.order_sizer 50 0.2 0 50 (Lot 0 1e12 0.01 10) = Return 0.2%float.
Proof. vm_compute. reflexivity. Qed.

Example scenario4_binary64 :
  Binary64.order_sizer 25 0.2 0 50 (Lot 0 1e12 0.01 10) = Return 0.2%float
  ∧ PrimFloat.mul 0.2 50 = 10%float.
Proof. split; vm_compute; reflexivity. Qed.

Example btc_binary64 :
  Binary64.order_sizer 25 0.2 0 60000 (Lot 0.00001 9000 0.00001 10)
  = Return 0.00016%float
  ∧ PrimFloat.ltb (PrimFloat.mul 0.00016 60000) 10 = true.
Proof. split; vm_compute; reflexivity. Qed.

Example zero_price_binary64 :
  Binary64.order_sizer 25 0.2 0 0 (Lot 0.00001 9000 0.00001 10)
  = Raise ZeroDivisionError.
Proof. vm_compute. reflexivity. Qed.

End Binary64Replay.

(** ** Indicators *)

Lemma shift_length {A : Type} (s : list (option A)) :
  length (pd.shift s) = length s.
Proof. unfold pd.shift. rewrite length_take. cbn [length]. lia. Qed.

(** The first cell of a shifted column is NaN. *)
Lemma shift_lookup_0 {A : Type} (s : list (option A)) (x : option A) :
  pd.shift s !! 0%nat = Some x → x = None.
Proof. unfold pd.shift. destruct s; cbn; congruence. Qed.

Ltac pd_length :=
  unfold pd.rolling_mean, pd.where_, pd.gt_scalar, pd.lt_scalar, pd.gt, pd.lt,
    pd.and, pd.invert, pd.diff, pd.sub, pd.add, pd.neg, pd.abs, pd.scale,
    pd.div, pd.replace_nan, pd.fillna, pd.max3, pd.nan_free;
  repeat rewrite ?length_fmap, ?length_seq, ?length_zip_with, ?shift_length;
  try lia.

Section Indicators.
Local Open Scope Q_scope.

Lemma rolling_mean_lookup (n : nat) (s : pd.Series) (t : nat) :
  (t < length s)%nat →
  pd.rolling_mean n s !! t = Some (pd.rolling_mean_at n s t).
Proof.
  intros Ht. unfold pd.rolling_mean.
  rewrite list_lookup_fmap, lookup_seq_lt by assumption. reflexivity.
Qed.

Lemma rsi_gain_length (series : list Q) (n : nat) :
  length (rsi_gain series n) = length series.
Proof.
  unfold rsi_gain, pd.rolling_mean, pd.where_, pd.gt_scalar, pd.diff, pd.sub,
    pd.nan_free.
  rewrite length_fmap, length_seq, !length_zip_with, !length_fmap,
    !length_zip_with, shift_length, !length_fmap. lia.
Qed.

Lemma rsi_loss_length (series : list Q) (n : nat) :
  length (rsi_loss series n) = length series.
Proof.
  unfold rsi_loss, pd.rolling_mean, pd.neg, pd.where_, pd.lt_scalar, pd.diff,
    pd.sub, pd.nan_free.
  rewrite length_fmap, length_seq, !length_fmap, !length_zip_with,
    !length_fmap, !length_zip_with, shift_length, !length_fmap. lia.
Qed.

Lemma ewm_from_length (alpha prev : Q) (xs : list Q) :
  length (pd.ewm_from alpha prev xs) = length xs.
Proof.
  revert prev. induction xs as [|x xs IH]; intros prev; cbn; [reflexivity|].
  rewrite IH. reflexivity.
Qed.

Lemma ema_length (series : list Q) (n : nat) :
  length (ema series n) = length series.
Proof.
  unfold ema, pd.ewm_mean. destruct series as [|x xs]; [reflexivity|].
  cbn. rewrite ewm_from_length. reflexivity.
Qed.

Lemma rsi_length (series : list Q) (n : nat) :
  length (rsi series n) = length series.
Proof.
  unfold rsi. pd_length.
  rewrite rsi_gain_length, rsi_loss_length. lia.
Qed.

Lemma dmi_adx_length (high low close : list Q) (n m : nat) (k : nat) :
  length high = k → length low = k → length close = k →
  length (dmi_adx high low close n m).1.1 = k
  ∧ length (dmi_adx high low close n m).1.2 = k
  ∧ length (dmi_adx high low close n m).2 = k.
Proof.
  intros Hh Hl Hc. unfold dmi_adx. cbn [fst snd].
  repeat split; pd_length.
Qed.

(** One cell of [rsi] from the cells of the two trailing means. *)
Lemma rsi_lookup (series : list Q) (n t : nat) (g l : option Q) :
  rsi_gain series n !! t = Some g →
  rsi_loss series n !! t = Some l →
  rsi series n !! t
  = Some (default 50 (rsi_formula (pd.odiv g (pd.nan_if 0 l)))).
Proof.
  intros Hg Hl. unfold rsi, pd.fillna, pd.div, pd.replace_nan.
  rewrite !list_lookup_fmap, lookup_zip_with, list_lookup_fmap, Hg, Hl.
  reflexivity.
Qed.

(** C2 on the code: at a bar whose trailing mean of losses is zero the
    divisor has been replaced by NaN, the NaN runs through the formula, and
    [fillna(50)] makes the RSI 50, where the specification and the usual
    definition of the RSI say 100. *)
Theorem rsi_zero_loss_is_50 (series : list Q) (n t : nat) (g : option Q)
    (l : Q) :
  rsi_gain series n !! t = Some g →
  rsi_loss series n !! t = Some (Some l) →
  l == 0 →
  rsi series n !! t = Some 50.
Proof.
  intros Hg Hl Hz. rewrite (rsi_lookup _ _ _ _ _ Hg Hl).
  unfold pd.nan_if. apply Qeq_bool_iff in Hz. rewrite Hz.
  destruct g; reflexivity.
Qed.

Lemma rsi_zero_loss_is_50_witness :
  rsi (close <$> Scenario.rally 16) 14 !! 14%nat = Some 50.
Proof.
  eapply (rsi_zero_loss_is_50 (close <$> Scenario.rally 16) 14 14).
  - vm_compute. reflexivity.
  - vm_compute. reflexivity.
  - reflexivity.
Defined.

(** A bar without a full window has RSI 50. *)
Lemma rsi_warm_up (series : list Q) (n t : nat) :
  (t < length series)%nat → (t + 1 < n)%nat → rsi series n !! t = Some 50.
Proof.
  intros Ht Hn.
  assert (Hw : ∀ s, pd.rolling_mean_at n s t = None).
  { intros s. unfold pd.rolling_mean_at.
    apply Nat.ltb_lt in Hn. rewrite Hn. reflexivity. }
  rewrite (rsi_lookup series n t None None).
  - reflexivity.
  - unfold rsi_gain. rewrite rolling_mean_lookup, Hw; [reflexivity|].
    pose proof (rsi_gain_length series n) as E.
    unfold rsi_gain, pd.rolling_mean in E.
    rewrite length_fmap, length_seq in E. lia.
  - unfold rsi_loss. rewrite rolling_mean_lookup, Hw; [reflexivity|].
    pose proof (rsi_loss_length series n) as E.
    unfold rsi_loss, pd.rolling_mean in E.
    rewrite length_fmap, length_seq in E. lia.
Qed.

(** The two trailing means are means of non-negative cells. *)
Lemma sum_nonneg (w : pd.Series) (v : Q) :
  Forall nonneg_cell w → pd.sum w = Some v → 0 <= v.
Proof.
  revert v. induction w as [|x w IH]; intros v HF Hs; cbn in Hs.
  - injection Hs as <-. lra.
  - destruct x as [a|]; [|discriminate].
    destruct (pd.sum w) as [b|] eqn:E; [|discriminate].
    cbn in Hs. injection Hs as <-.
    apply Forall_cons in HF as [Ha HF].
    specialize (IH b HF eq_refl). specialize (Ha a eq_refl). lra.
Qed.

Lemma rolling_mean_nonneg (n : nat) (s : pd.Series) (t : nat) (v : Q) :
  Forall nonneg_cell s → pd.rolling_mean n s !! t = Some (Some v) → 0 <= v.
Proof.
  intros HF. unfold pd.rolling_mean. rewrite list_lookup_fmap.
  destruct (seq 0 (length s) !! t) as [i|] eqn:Ei; [|discriminate].
  cbn. intros [= E]. unfold pd.rolling_mean_at in E.
  destruct ((i + 1 <? n)%nat || (n =? 0)%nat) eqn:Eg; [discriminate|].
  apply orb_false_elim in Eg as [_ Hn]. apply Nat.eqb_neq in Hn.
  destruct (pd.sum (pd.window n s i)) as [sv|] eqn:Es; [|discriminate].
  cbn in E. injection E as <-.
  assert (0 <= sv).
  { eapply sum_nonneg; [|exact Es]. unfold pd.window.
    apply Forall_take, Forall_drop, HF. }
  assert (0 < inject_Z (Z.of_nat n)).
  { change 0 with (inject_Z 0). rewrite <- Zlt_Qlt. lia. }
  apply Qle_shift_div_l; lra.
Qed.

Lemma rsi_gain_nonneg (series : list Q) (n t : nat) (g : Q) :
  rsi_gain series n !! t = Some (Some g) → 0 <= g.
Proof.
  apply rolling_mean_nonneg. apply Forall_lookup. intros i x.
  unfold pd.where_, pd.gt_scalar.
  rewrite lookup_zip_with, list_lookup_fmap.
  destruct (pd.diff (pd.nan_free series) !! i) as [[a|]|]; cbn;
    [|intros [= <-] q [= <-]; lra|discriminate].
  destruct (Qltb 0 a) eqn:E; intros [= <-] q [= <-]; [|lra].
  apply Qltb_true in E. lra.
Qed.

Lemma rsi_loss_nonneg (series : list Q) (n t : nat) (l : Q) :
  rsi_loss series n !! t = Some (Some l) → 0 <= l.
Proof.
  apply rolling_mean_nonneg. apply Forall_lookup. intros i x.
  unfold pd.neg, pd.where_, pd.lt_scalar.
  rewrite list_lookup_fmap, lookup_zip_with, list_lookup_fmap.
  destruct (pd.diff (pd.nan_free series) !! i) as [[a|]|]; cbn;
    [|intros [= <-] q [= <-]; lra|discriminate].
  destruct (Qltb a 0) eqn:E; cbn; intros [= <-] q [= <-]; [|lra].
  apply Qltb_true in E. lra.
Qed.

(** At a bar with both trailing means and a mean loss l other than zero
    the cell is 100 - 100 / (1 + g / l); the divisor 1 + g / l is at
    least 1. *)
Lemma rsi_value (series : list Q) (n t : nat) (g l : Q) :
  rsi_gain series n !! t = Some (Some g) →
  rsi_loss series n !! t = Some (Some l) →
  ¬ l == 0 →
  ∃ v, rsi series n !! t = Some v ∧ v == 100 - 100 / (1 + g / l).
Proof.
  intros Hg Hl Hnz.
  pose proof (rsi_gain_nonneg _ _ _ _ Hg) as Hg0.
  pose proof (rsi_loss_nonneg _ _ _ _ Hl) as Hl0.
  assert (Hlpos : 0 < l).
  { destruct (Qlt_le_dec 0 l) as [?|Hle]; [assumption|].
    exfalso. apply Hnz. lra. }
  rewrite (rsi_lookup _ _ _ _ _ Hg Hl).
  unfold pd.nan_if.
  destruct (Qeq_bool l 0) eqn:E; [apply Qeq_bool_iff in E; lra|].
  unfold pd.odiv. rewrite E. unfold rsi_formula. cbn [pd.lift2 pd.odiv].
  assert (Hrs : 0 <= g / l) by (apply Qle_shift_div_l; lra).
  destruct (Qeq_bool (1 + g / l) 0) eqn:E1; [apply Qeq_bool_iff in E1; lra|].
  eexists. split; reflexivity.
Qed.

End Indicators.

(** ** Trend-phase classifier *)

Section Classifier.
Import TrendPhases.

Lemma filled_lookup (col : list bool) (t : nat) (x : bool) :
  col !! t = Some x →
  pd.fillna false (pd.shift (Some <$> col)) !! t = Some (previous col t).
Proof.
  intros Hx. pose proof (lookup_lt_Some _ _ _ Hx) as Ht.
  unfold pd.fillna, pd.shift.
  rewrite list_lookup_fmap, length_fmap, lookup_take_lt by assumption.
  destruct t as [|t']; [reflexivity|].
  change ((None :: (Some <$> col)) !! S t') with ((Some <$> col) !! t').
  rewrite list_lookup_fmap.
  destruct (lookup_lt_is_Some_2 col t' ltac:(lia)) as [y Hy].
  cbn [previous]. rewrite Hy. reflexivity.
Qed.

Lemma begin_lookup (v : pd.version) (col : list bool) (t : nat) (x : bool) :
  col !! t = Some x →
  pd.logical_and (pd.BoolCol col) (pd.invert_col (shift_fillna v col)) !! t
  = Some (begin_flag v x (previous col t)).
Proof.
  intros Hx. destruct v; unfold shift_fillna;
    cbn [pd.invert_col pd.logical_and begin_flag];
    rewrite lookup_zip_with, !list_lookup_fmap, Hx,
      (filled_lookup _ _ _ Hx); cbn.
  - reflexivity.
  - destruct (previous col t); cbn; rewrite andb_true_r; reflexivity.
Qed.

Lemma end_lookup (v : pd.version) (col : list bool) (t : nat) (x : bool) :
  col !! t = Some x →
  pd.logical_and (shift_fillna v col) (pd.invert_col (pd.BoolCol col)) !! t
  = Some (previous col t && negb x).
Proof.
  intros Hx. destruct v; unfold shift_fillna;
    cbn [pd.invert_col pd.logical_and];
    rewrite lookup_zip_with, !list_lookup_fmap, Hx,
      (filled_lookup _ _ _ Hx); reflexivity.
Qed.

(** A conjunction whose last operand compares a column with its own shift
    is [False] on the first bar: the shifted cell is NaN. *)
Lemma and_shift_0 (f : Q → Q → bool) (x : list bool) (e : pd.Series)
    (b : bool) :
  pd.and x (zip_with (pd.cmp2 f) e (pd.shift e)) !! 0%nat = Some b →
  b = false.
Proof.
  unfold pd.and. rewrite !lookup_zip_with. intros H.
  destruct (x !! 0%nat) as [x0|]; [|discriminate].
  destruct (e !! 0%nat) as [e0|]; [|discriminate].
  destruct (pd.shift e !! 0%nat) as [s0|] eqn:Es; [|discriminate].
  apply shift_lookup_0 in Es as ->. cbn in H.
  destruct e0; cbn in H; injection H as <-; apply andb_false_r.
Qed.

Lemma strongUpTrend_0 (v : pd.version) (self : t) (df : list Bar)
    (b : bool) :
  strongUpTrend (compute v self df) !! 0%nat = Some b → b = false.
Proof.
  unfold compute. destruct (dmi_adx _ _ _ _ _) as [[pdi mdi] adx].
  cbn [strongUpTrend]. apply and_shift_0.
Qed.

Lemma strongDownTrend_0 (v : pd.version) (self : t) (df : list Bar)
    (b : bool) :
  strongDownTrend (compute v self df) !! 0%nat = Some b → b = false.
Proof.
  unfold compute. destruct (dmi_adx _ _ _ _ _) as [[pdi mdi] adx].
  cbn [strongDownTrend]. apply and_shift_0.
Qed.

Lemma strong_trend_length (v : pd.version) (self : t) (df : list Bar) :
  length (strongUpTrend (compute v self df)) = length df
  ∧ length (strongDownTrend (compute v self df)) = length df.
Proof.
  unfold compute.
  destruct (dmi_adx_length (high <$> df) (low <$> df) (close <$> df)
              (adx_len self) (adx_smooth self) (length df))
    as (Hp & Hm & Ha); try apply length_fmap.
  destruct (dmi_adx _ _ _ _ _) as [[pdi mdi] adx]. cbn [fst snd] in Hp, Hm, Ha.
  cbn [strongUpTrend strongDownTrend].
  pose proof (ema_length (close <$> df) (ema_short self)) as Hs.
  pose proof (ema_length (close <$> df) (ema_long self)) as Hl.
  pose proof (rsi_length (close <$> df) (rsi_len self)) as Hr.
  rewrite length_fmap in Hs, Hl, Hr.
  split; pd_length.
Qed.

(** C4.  At every bar [t] of the computed frame, endUptrend ([finHausse])
    is strongUptrend(t-1) and not strongUptrend(t), the flag of a missing
    predecessor being false, and so is [finBaisse] for the downtrend, on
    every pandas.  beginUptrend ([debutHausse]) is strongUptrend(t) and not
    strongUptrend(t-1) where [fillna] downcasts to bool (pandas 2 and
    before); on pandas 3 it is strongUptrend(t) alone, so it stays set on
    every bar of the trend after the first; the same for [debutBaisse].
    The four flags are false at t = 0 on every pandas. *)
Theorem edge_flags (v : pd.version) (self : t) (df : list Bar) (t : nat) :
  let out := compute v self df in
  (t < length df)%nat →
  ∃ up down : bool,
    strongUpTrend out !! t = Some up
    ∧ strongDownTrend out !! t = Some down
    ∧ debutHausse out !! t
      = Some (match v with
              | pd.pandas2 => up && negb (previous (strongUpTrend out) t)
              | pd.pandas3 => up
              end)
    ∧ finHausse out !! t = Some (previous (strongUpTrend out) t && negb up)
    ∧ debutBaisse out !! t
      = Some (match v with
              | pd.pandas2 => down && negb (previous (strongDownTrend out) t)
              | pd.pandas3 => down
              end)
    ∧ finBaisse out !! t
      = Some (previous (strongDownTrend out) t && negb down)
    ∧ (t = 0%nat →
       debutHausse out !! t = Some false ∧ finHausse out !! t = Some false
       ∧ debutBaisse out !! t = Some false
       ∧ finBaisse out !! t = Some false).
Proof.
  intros out Ht.
  destruct (strong_trend_length v self df) as [Lu Ld]. fold out in Lu, Ld.
  destruct (lookup_lt_is_Some_2 (strongUpTrend out) t ltac:(lia))
    as [up Hup].
  destruct (lookup_lt_is_Some_2 (strongDownTrend out) t ltac:(lia))
    as [down Hdown].
  exists up, down. split; [assumption|]. split; [assumption|].
  assert (Hdh := begin_lookup v _ _ _ Hup).
  assert (Hfh := end_lookup v _ _ _ Hup).
  assert (Hdb := begin_lookup v _ _ _ Hdown).
  assert (Hfb := end_lookup v _ _ _ Hdown).
  assert (E : debutHausse out !! t
              = Some (begin_flag v up (previous (strongUpTrend out) t))
            ∧ finHausse out !! t
              = Some (previous (strongUpTrend out) t && negb up)
            ∧ debutBaisse out !! t
              = Some (begin_flag v down (previous (strongDownTrend out) t))
            ∧ finBaisse out !! t
              = Some (previous (strongDownTrend out) t && negb down)).
  { revert Hdh Hfh Hdb Hfb. subst out. unfold compute.
    destruct (dmi_adx _ _ _ _ _) as [[pdi mdi] adx].
    cbn [strongUpTrend strongDownTrend debutHausse finHausse debutBaisse
         finBaisse]. auto. }
  destruct E as (E1 & E2 & E3 & E4).
  split; [rewrite E1; destruct v; reflexivity|].
  split; [assumption|].
  split; [rewrite E3; destruct v; reflexivity|].
  split; [assumption|].
  intros ->. rewrite E1, E2, E3, E4.
  apply strongUpTrend_0 in Hup as ->.
  apply strongDownTrend_0 in Hdown as ->. destruct v; auto.
Qed.

Lemma edge_flags_witness :
  strongUpTrend (compute pd.pandas3 __init__ df_trend) !! 26%nat = Some true
  ∧ debutHausse (compute pd.pandas3 __init__ df_trend) !! 27%nat = Some true
  ∧ debutHausse (compute pd.pandas2 __init__ df_trend) !! 27%nat
    = Some false.
Proof.
  split; [vm_compute; reflexivity|]. split.
  - destruct (edge_flags pd.pandas3 __init__ df_trend 27)
      as (up & down & Hup & _ & H & _); [vm_compute; lia|].
    rewrite H. vm_compute in Hup. injection Hup as <-. reflexivity.
  - destruct (edge_flags pd.pandas2 __init__ df_trend 27)
      as (up & down & Hup & _ & H & _); [vm_compute; lia|].
    rewrite H. vm_compute in Hup. injection Hup as <-.
    vm_compute. reflexivity.
Defined.

End Classifier.

(** * Further properties *)

(** ** Order sizer *)

Section SizerMore.
Local Open Scope Q_scope.

(** X2.  On rationals, where no quotient overflows, [conform_qty_and_notional]
    raises exactly when the price is zero and the minimum notional is
    positive, and then it is the division by zero of the bump. *)
Theorem conform_raises_iff (qty price : Q) (f : Filters) (e : exn) :
  conform_qty_and_notional qty price f = Raise e
  ↔ e = ZeroDivisionError ∧ price == 0 ∧ 0 < min_notional_of f.
Proof.
  unfold conform_qty_and_notional, truediv.
  set (q0 := round_step_size _ _).
  destruct (Qltb (q0 * price) (min_notional_of f)) eqn:Eb;
    destruct (Qeq_bool price 0) eqn:Ep.
  - apply Qltb_true in Eb. apply Qeq_bool_iff in Ep.
    split; [intros [= <-]|intros (-> & _); reflexivity].
    repeat split; [assumption|]. rewrite Ep in Eb. lra.
  - split; [discriminate|]. intros (_ & Hp & _).
    apply Qeq_bool_iff in Hp. congruence.
  - apply Qltb_false in Eb. apply Qeq_bool_iff in Ep.
    split; [discriminate|]. intros (_ & _ & Hm). rewrite Ep in Eb. lra.
  - split; [discriminate|]. intros (_ & Hp & _).
    apply Qeq_bool_iff in Hp. congruence.
Qed.

Lemma conform_raises_iff_witness :
  conform_qty_and_notional 1 0 Scenario.filters3 = Raise ZeroDivisionError.
Proof.
  apply (conform_raises_iff 1 0 Scenario.filters3 ZeroDivisionError).
  split; [reflexivity|]. split; [reflexivity|vm_compute; reflexivity].
Defined.

(** X4.  The dict of [symbol_filters] maps a filter type to the last entry of
    that type in the exchange's list, and to nothing when there is none. *)
Theorem dict_of_filters_lookup (fs : list (string * gmap string Q))
    (k : string) :
  dict_of_filters fs !! k = snd <$> last (filter (λ f, f.1 = k) fs).
Proof.
  unfold dict_of_filters.
  induction fs as [|f fs IH] using rev_ind; [reflexivity|].
  rewrite foldl_app, filter_app, last_app. cbn [foldl].
  destruct (decide (f.1 = k)) as [E|E].
  - rewrite filter_cons_True by assumption. cbn.
    rewrite <- E, lookup_insert_eq. reflexivity.
  - rewrite filter_cons_False by assumption. cbn.
    rewrite lookup_insert_ne by assumption. exact IH.
Qed.

End SizerMore.

(** ** Indicators *)

Lemma Forall_zip_with_cells {A B C : Type} (P : A → Prop) (Q' : B → Prop)
    (R : C → Prop) (f : A → B → C) (a : list A) (b : list B) :
  (∀ x y, P x → Q' y → R (f x y)) →
  Forall P a → Forall Q' b → Forall R (zip_with f a b).
Proof.
  intros Hf Ha. revert b.
  induction Ha as [|x a Hx Ha IH]; intros [|y b] Hb; cbn; try constructor.
  - apply Forall_cons in Hb as [Hy _]. auto.
  - apply Forall_cons in Hb as [_ Hb]. auto.
Qed.

Lemma fillna_cells (P : Q → Prop) (d : Q) (s : pd.Series) :
  P d → Forall (λ x, ∀ q, x = Some q → P q) s → Forall P (pd.fillna d s).
Proof.
  intros Hd Hs. unfold pd.fillna. apply Forall_fmap.
  eapply Forall_impl; [exact Hs|]. intros [q|] Hq; cbn; auto.
Qed.

Section IndicatorsMore.
Local Open Scope Q_scope.

(** *** The moving average stays within the closes *)

Lemma ewm_from_bounds (alpha prev lo hi : Q) (xs : list Q) :
  0 <= alpha <= 1 → lo <= prev <= hi →
  Forall (λ x, lo <= x <= hi) xs →
  Forall (λ y, lo <= y <= hi) (pd.ewm_from alpha prev xs).
Proof.
  intros Ha Hp Hxs. revert prev Hp.
  induction Hxs as [|x xs Hx Hxs IH]; intros prev Hp; cbn; constructor.
  - split; nra.
  - apply IH. split; nra.
Qed.

(** X5.  With a span of at least 1 the EMA of a series lies between any two
    bounds of the series; the EMA of a constant series is that constant. *)
Theorem ema_within_range (series : list Q) (n : nat) (lo hi : Q) :
  (1 <= n)%nat →
  Forall (λ x, lo <= x <= hi) series →
  Forall (λ y, lo <= y <= hi) (ema series n).
Proof.
  intros Hn Hs. unfold ema, pd.ewm_mean.
  destruct series as [|x xs]; [constructor|].
  apply Forall_cons in Hs as [Hx Hxs]. constructor; [assumption|].
  apply ewm_from_bounds; try assumption.
  assert (Hz : 1 <= inject_Z (Z.of_nat n)).
  { change 1 with (inject_Z 1). rewrite <- Zle_Qle. lia. }
  split.
  - apply Qle_shift_div_l; lra.
  - apply Qle_shift_div_r; lra.
Qed.

Lemma ema_within_range_witness :
  Forall (λ y, 1 <= y <= 3) (ema [1; 3; 2] 2).
Proof.
  apply (ema_within_range [1; 3; 2] 2 1 3); [lia|].
  repeat constructor; vm_compute; discriminate.
Defined.

(** *** The RSI is a percentage *)

(** X6.  Whatever the series and the length, every value of the RSI, warm-up
    included, lies between 0 and 100. *)
Theorem rsi_range (series : list Q) (n : nat) :
  Forall (λ v, 0 <= v <= 100) (rsi series n).
Proof.
  apply Forall_lookup. intros t v Hv.
  pose proof (lookup_lt_Some _ _ _ Hv) as Ht. rewrite rsi_length in Ht.
  destruct (lookup_lt_is_Some_2 (rsi_gain series n) t) as [g Hg];
    [rewrite rsi_gain_length; assumption|].
  destruct (lookup_lt_is_Some_2 (rsi_loss series n) t) as [l Hl];
    [rewrite rsi_loss_length; assumption|].
  rewrite (rsi_lookup _ _ _ _ _ Hg Hl) in Hv. injection Hv as <-.
  destruct l as [l|]; [|destruct g; cbn; lra].
  unfold pd.nan_if. destruct (Qeq_bool l 0) eqn:El; [destruct g; cbn; lra|].
  destruct g as [g|]; [|cbn; lra].
  pose proof (rsi_gain_nonneg _ _ _ _ Hg) as Hg0.
  pose proof (rsi_loss_nonneg _ _ _ _ Hl) as Hl0.
  assert (Hlpos : 0 < l).
  { destruct (Qlt_le_dec 0 l) as [?|Hle]; [assumption|].
    assert (E : l == 0) by lra. apply Qeq_bool_iff in E. congruence. }
  unfold pd.odiv. rewrite El. unfold rsi_formula. cbn [pd.lift2 pd.odiv].
  assert (Hrs : 0 <= g / l) by (apply Qle_shift_div_l; lra).
  destruct (Qeq_bool (1 + g / l) 0) eqn:E1; [cbn; lra|].
  cbn [pd.lift2 default].
  assert (H1 : 100 / (1 + g / l) <= 100) by (apply Qle_shift_div_r; lra).
  assert (H2 : 0 <= 100 / (1 + g / l)) by (apply Qle_shift_div_l; lra).
  unfold id. lra.
Qed.

(** *** Directional indicators *)

(** [dmi_adx] returns its three columns with NaN filled by 0. *)
Lemma dmi_adx_columns (high low close : list Q) (n m : nat) :
  dmi_adx high low close n m
  = (pd.fillna 0 (dmi.plus_di high low close n),
     pd.fillna 0 (dmi.minus_di high low close n),
     pd.fillna 0 (dmi.adx high low close n m)).
Proof. reflexivity. Qed.

Lemma omax_nonneg (x y : option Q) :
  nonneg_cell x → nonneg_cell y → nonneg_cell (pd.omax x y).
Proof.
  intros Hx Hy q. destruct x as [a|], y as [b|]; cbn; try discriminate.
  - intros [= <-]. specialize (Hx a eq_refl). specialize (Hy b eq_refl).
    destruct (Qltb a b); assumption.
  - intros [= <-]. auto.
  - intros [= <-]. auto.
Qed.

Lemma abs_nonneg (s : pd.Series) : Forall nonneg_cell (pd.abs s).
Proof.
  unfold pd.abs. apply Forall_fmap, Forall_true.
  intros [a|] q; cbn; [|discriminate]. intros [= <-]. apply Qabs_nonneg.
Qed.

Lemma tr_nonneg (high low close : list Q) :
  Forall nonneg_cell (dmi.tr high low close).
Proof.
  unfold dmi.tr, pd.max3.
  apply (Forall_zip_with_cells nonneg_cell nonneg_cell);
    [apply omax_nonneg| |apply abs_nonneg].
  apply (Forall_zip_with_cells nonneg_cell nonneg_cell);
    [apply omax_nonneg|apply abs_nonneg|apply abs_nonneg].
Qed.

(** A movement kept only where it is positive is never negative. *)
Lemma where_positive_nonneg (s : pd.Series) (g : list bool) :
  Forall nonneg_cell (pd.where_ s (pd.and g (pd.gt_scalar s 0)) 0).
Proof.
  apply Forall_lookup. intros i y.
  unfold pd.where_, pd.and, pd.gt_scalar.
  rewrite !lookup_zip_with, list_lookup_fmap.
  destruct (s !! i) as [x|]; cbn; [|discriminate].
  destruct (g !! i) as [c|]; cbn; [|discriminate].
  intros [= <-] q.
  destruct c; cbn; [|intros [= <-]; lra].
  destruct x as [a|]; cbn; [|intros [= <-]; lra].
  destruct (Qltb 0 a) eqn:E; intros [= <-]; [|lra].
  apply Qltb_true in E. lra.
Qed.

Lemma rolling_mean_nonneg_cells (n : nat) (s : pd.Series) :
  Forall nonneg_cell s → Forall nonneg_cell (pd.rolling_mean n s).
Proof.
  intros Hs. apply Forall_lookup. intros t x Hx q ->.
  eapply rolling_mean_nonneg; eassumption.
Qed.

(** 100 times a quotient of trailing means, the divisor zero made NaN. *)
Lemma di_nonneg (num den : pd.Series) :
  Forall nonneg_cell num → Forall nonneg_cell den →
  Forall nonneg_cell (pd.scale 100 (pd.div num (pd.replace_nan 0 den))).
Proof.
  intros Hn Hd. unfold pd.scale, pd.div, pd.replace_nan.
  apply Forall_fmap.
  apply (Forall_zip_with_cells nonneg_cell
           (λ y, ∀ q, y = Some q → 0 < q)); [|assumption|].
  - intros x y Hx Hy q. destruct x as [a|], y as [b|]; cbn; try discriminate.
    destruct (Qeq_bool b 0); cbn; [discriminate|]. intros [= <-].
    specialize (Hx a eq_refl). specialize (Hy b eq_refl).
    assert (0 <= a / b) by (apply Qle_shift_div_l; lra). lra.
  - apply Forall_fmap. eapply Forall_impl; [exact Hd|].
    intros [b|] Hb q; cbn; [|discriminate].
    destruct (Qeq_bool b 0) eqn:E; [discriminate|]. intros [= <-].
    specialize (Hb b eq_refl).
    destruct (Qlt_le_dec 0 b) as [?|Hle]; [assumption|].
    assert (E' : b == 0) by lra. apply Qeq_bool_iff in E'. congruence.
Qed.

Lemma plus_di_nonneg (high low close : list Q) (n : nat) :
  Forall nonneg_cell (dmi.plus_di high low close n).
Proof.
  apply di_nonneg; apply rolling_mean_nonneg_cells;
    [apply where_positive_nonneg|apply tr_nonneg].
Qed.

Lemma minus_di_nonneg (high low close : list Q) (n : nat) :
  Forall nonneg_cell (dmi.minus_di high low close n).
Proof.
  apply di_nonneg; apply rolling_mean_nonneg_cells;
    [apply where_positive_nonneg|apply tr_nonneg].
Qed.

(** The directional index of two non-negative columns is a percentage. *)
Lemma dx_cell (x z : option Q) :
  nonneg_cell x → nonneg_cell z →
  cell_in 0 100
    (option_map (Qmult 100)
       (pd.odiv (option_map Qabs (pd.lift2 Qminus x z))
                (pd.nan_if 0 (pd.lift2 Qplus x z)))).
Proof.
  intros Hx Hz q. unfold pd.odiv, pd.nan_if, pd.lift2, option_map.
  destruct x as [a|], z as [b|]; try discriminate.
  destruct (Qeq_bool (a + b) 0) eqn:E; [discriminate|].
  rewrite E.
  specialize (Hx a eq_refl). specialize (Hz b eq_refl).
  assert (Hs : 0 < a + b).
  { destruct (Qlt_le_dec 0 (a + b)) as [?|Hle]; [assumption|].
    assert (E' : a + b == 0) by lra. apply Qeq_bool_iff in E'. congruence. }
  set (r := Qabs (a - b)).
  assert (Habs : r <= a + b)
    by (unfold r; apply Qabs_Qle_condition; split; lra).
  assert (H0 : 0 <= r) by apply Qabs_nonneg.
  clearbody r. intros [= <-].
  assert (H1 : r / (a + b) <= 1) by (apply Qle_shift_div_r; lra).
  assert (H2 : 0 <= r / (a + b)) by (apply Qle_shift_div_l; lra).
  split; lra.
Qed.

Lemma dx_in_range (p m : pd.Series) :
  Forall nonneg_cell p → Forall nonneg_cell m →
  Forall (cell_in 0 100)
    (pd.scale 100 (pd.div (pd.abs (pd.sub p m))
                          (pd.replace_nan 0 (pd.add p m)))).
Proof.
  intros Hp Hm. apply Forall_lookup. intros i y.
  unfold pd.scale, pd.div, pd.replace_nan, pd.abs, pd.sub, pd.add.
  rewrite list_lookup_fmap, lookup_zip_with, !list_lookup_fmap,
    !lookup_zip_with.
  destruct (p !! i) as [x|] eqn:Ex; [|discriminate].
  destruct (m !! i) as [z|] eqn:Ez; [|discriminate].
  intros [= <-]. apply dx_cell.
  - exact (Forall_lookup_1 _ _ _ _ Hp Ex).
  - exact (Forall_lookup_1 _ _ _ _ Hm Ez).
Qed.

Lemma sum_bounds (lo hi : Q) (w : pd.Series) (v : Q) :
  Forall (cell_in lo hi) w → pd.sum w = Some v →
  inject_Z (Z.of_nat (length w)) * lo <= v
  ∧ v <= inject_Z (Z.of_nat (length w)) * hi.
Proof.
  revert v. induction w as [|x w IH]; intros v HF Hs; cbn in Hs.
  - injection Hs as <-. change (inject_Z (Z.of_nat (length []))) with 0.
    split; lra.
  - destruct x as [a|]; [|discriminate].
    destruct (pd.sum w) as [b|] eqn:E; [|discriminate].
    apply Forall_cons in HF as [Ha HF].
    specialize (IH b HF eq_refl). specialize (Ha a eq_refl).
    cbn [length]. rewrite Nat2Z.inj_succ, <- Z.add_1_r, inject_Z_plus.
    change (inject_Z 1) with 1.
    set (k := inject_Z (Z.of_nat (length w))) in *. clearbody k.
    unfold pd.lift2 in Hs. injection Hs as <-. split; nra.
Qed.

Lemma rolling_mean_in_range (lo hi : Q) (n : nat) (s : pd.Series) :
  Forall (cell_in lo hi) s → Forall (cell_in lo hi) (pd.rolling_mean n s).
Proof.
  intros HF. apply Forall_lookup. intros t x.
  unfold pd.rolling_mean. rewrite list_lookup_fmap.
  destruct (seq 0 (length s) !! t) as [i|] eqn:Ei; [|discriminate].
  apply lookup_seq in Ei as [-> Ht]. cbn. intros [= <-] q E.
  unfold pd.rolling_mean_at in E.
  destruct ((t + 1 <? n)%nat || (n =? 0)%nat) eqn:Eg; [discriminate|].
  apply orb_false_elim in Eg as [Hlt Hn].
  apply Nat.ltb_ge in Hlt. apply Nat.eqb_neq in Hn.
  destruct (pd.sum (pd.window n s t)) as [sv|] eqn:Es; [|discriminate].
  cbn in E. injection E as <-.
  assert (Hw : Forall (cell_in lo hi) (pd.window n s t))
    by (unfold pd.window; apply Forall_take, Forall_drop, HF).
  destruct (sum_bounds lo hi _ _ Hw Es) as [H1 H2].
  assert (Hlen : length (pd.window n s t) = n).
  { unfold pd.window. rewrite length_take, length_drop. lia. }
  rewrite Hlen in H1, H2.
  assert (Hpos : 0 < inject_Z (Z.of_nat n)).
  { change 0 with (inject_Z 0). rewrite <- Zlt_Qlt. lia. }
  split.
  - apply Qle_shift_div_l; lra.
  - apply Qle_shift_div_r; lra.
Qed.

(** X7.  For any bars, +DI and -DI are never negative and the ADX is a
    percentage. *)
Theorem dmi_adx_ranges (high low close : list Q) (n m : nat) :
  Forall (λ v, 0 <= v) (dmi_adx high low close n m).1.1
  ∧ Forall (λ v, 0 <= v) (dmi_adx high low close n m).1.2
  ∧ Forall (λ v, 0 <= v <= 100) (dmi_adx high low close n m).2.
Proof.
  rewrite dmi_adx_columns. cbn [fst snd]. repeat split.
  - apply fillna_cells; [lra|]. apply plus_di_nonneg.
  - apply fillna_cells; [lra|]. apply minus_di_nonneg.
  - apply (fillna_cells (λ v, 0 <= v <= 100)); [lra|].
    unfold dmi.adx. apply rolling_mean_in_range. unfold dmi.dx.
    apply dx_in_range; [apply plus_di_nonneg|apply minus_di_nonneg].
Qed.

(** *** Warm-up of the directional indicators *)

Lemma rolling_mean_at_short (n : nat) (s : pd.Series) (t : nat) :
  (t + 1 < n)%nat → pd.rolling_mean_at n s t = None.
Proof.
  intros Hn. unfold pd.rolling_mean_at.
  apply Nat.ltb_lt in Hn. rewrite Hn. reflexivity.
Qed.

Lemma dmi_lengths (high low close : list Q) (n k : nat) :
  length high = k → length low = k → length close = k →
  length (dmi.tr high low close) = k
  ∧ length (dmi.plus_dm high low) = k
  ∧ length (dmi.minus_dm high low) = k.
Proof.
  intros Hh Hl Hc.
  unfold dmi.tr, dmi.plus_dm, dmi.minus_dm, dmi.up_move, dmi.down_move.
  repeat split; pd_length.
Qed.

Lemma di_warm_up (num den : pd.Series) (n t : nat) :
  (t < length num)%nat → (t < length den)%nat → (t + 1 < n)%nat →
  pd.scale 100 (pd.div (pd.rolling_mean n num)
                       (pd.replace_nan 0 (pd.rolling_mean n den))) !! t
  = Some None.
Proof.
  intros Hn Hd Ht. unfold pd.scale, pd.div, pd.replace_nan.
  rewrite list_lookup_fmap, lookup_zip_with, list_lookup_fmap,
    !rolling_mean_lookup, !rolling_mean_at_short by assumption.
  reflexivity.
Qed.

Lemma di_length (num den : pd.Series) (n k : nat) :
  length num = k → length den = k →
  length (pd.scale 100 (pd.div (pd.rolling_mean n num)
                               (pd.replace_nan 0 (pd.rolling_mean n den))))
  = k.
Proof. intros Hn Hd. pd_length. Qed.

Lemma dx_lookup (p m : pd.Series) (t : nat) :
  p !! t = Some None → m !! t = Some None →
  pd.scale 100 (pd.div (pd.abs (pd.sub p m))
                       (pd.replace_nan 0 (pd.add p m))) !! t
  = Some None.
Proof.
  intros Hp Hm. unfold pd.scale, pd.div, pd.replace_nan, pd.abs, pd.sub, pd.add.
  rewrite list_lookup_fmap, lookup_zip_with, !list_lookup_fmap,
    !lookup_zip_with, Hp, Hm. reflexivity.
Qed.

(** A window that starts on a NaN has no mean. *)
Lemma rolling_mean_at_nan (m : nat) (s : pd.Series) (t : nat) :
  (m <= t + 1)%nat → s !! (t + 1 - m)%nat = Some None →
  pd.rolling_mean_at m s t = None.
Proof.
  intros Hm Hs. unfold pd.rolling_mean_at.
  destruct ((t + 1 <? m)%nat || (m =? 0)%nat) eqn:Eg; [reflexivity|].
  apply orb_false_elim in Eg as [_ Hz]. apply Nat.eqb_neq in Hz.
  unfold pd.window. destruct m as [|m']; [lia|].
  pose proof (lookup_drop s (t + 1 - S m') 0) as Hd.
  rewrite Nat.add_0_r, Hs in Hd.
  destruct (drop (t + 1 - S m') s) as [|x r]; [discriminate|].
  cbn in Hd. injection Hd as ->. reflexivity.
Qed.

Lemma dmi_adx_zero_prefix (high low close : list Q) (n m t : nat) :
  length high = length close → length low = length close →
  (t < length close)%nat →
  ((t + 1 < n)%nat →
   (dmi_adx high low close n m).1.1 !! t = Some 0
   ∧ (dmi_adx high low close n m).1.2 !! t = Some 0)
  ∧ ((t + 2 < n + m)%nat → (dmi_adx high low close n m).2 !! t = Some 0).
Proof.
  intros Hh Hl Ht.
  destruct (dmi_lengths high low close n (length close) Hh Hl eq_refl)
    as (Ltr & Lp & Lm).
  assert (Lpdi : length (dmi.plus_di high low close n) = length close)
    by (apply di_length; assumption).
  assert (Lmdi : length (dmi.minus_di high low close n) = length close)
    by (apply di_length; assumption).
  assert (Wp : ∀ i, (i < length close)%nat → (i + 1 < n)%nat →
               dmi.plus_di high low close n !! i = Some None)
    by (intros i Hi Hn; apply di_warm_up; lia).
  assert (Wm : ∀ i, (i < length close)%nat → (i + 1 < n)%nat →
               dmi.minus_di high low close n !! i = Some None)
    by (intros i Hi Hn; apply di_warm_up; lia).
  rewrite dmi_adx_columns. cbn [fst snd]. unfold pd.fillna. split.
  - intros Hn. rewrite !list_lookup_fmap, Wp, Wm by assumption.
    split; reflexivity.
  - intros Hnm. rewrite list_lookup_fmap. unfold dmi.adx.
    assert (Ldx : length (dmi.dx high low close n) = length close).
    { unfold dmi.dx. pd_length. }
    rewrite rolling_mean_lookup by lia.
    destruct (Nat.lt_ge_cases (t + 1) m) as [Hs|Hs];
      [rewrite rolling_mean_at_short by assumption; reflexivity|].
    destruct m as [|m'].
    + unfold pd.rolling_mean_at. rewrite orb_true_r. reflexivity.
    + rewrite rolling_mean_at_nan; [reflexivity|assumption|].
      unfold dmi.dx. apply dx_lookup; [apply Wp|apply Wm]; lia.
Qed.

(** X8.  Before a full window of bars both directional indicators are 0, and
    the ADX is 0 until the smoothing window holds only bars that have a
    directional index. *)
Theorem dmi_adx_warm_up (high low close : list Q) (n m t : nat) :
  length high = length close → length low = length close →
  (t < length close)%nat →
  ((t + 1 < n)%nat →
   (dmi_adx high low close n m).1.1 !! t = Some 0
   ∧ (dmi_adx high low close n m).1.2 !! t = Some 0)
  ∧ ((t + 2 < n + m)%nat → (dmi_adx high low close n m).2 !! t = Some 0).
Proof. exact (dmi_adx_zero_prefix high low close n m t). Qed.

Lemma dmi_adx_warm_up_witness :
  (dmi_adx [2; 3; 4; 6] [1; 2; 3; 4] [1.5; 2.5; 3.5; 5] 2 2).2 !! 1%nat
  = Some 0.
Proof.
  destruct (dmi_adx_warm_up [2; 3; 4; 6] [1; 2; 3; 4] [1.5; 2.5; 3.5; 5]
              2 2 1) as [_ H]; [reflexivity|reflexivity|cbn; lia|].
  apply H. lia.
Defined.

End IndicatorsMore.

(** ** Trend-phase classifier *)

Section ClassifierMore.
Import TrendPhases.
Local Open Scope Q_scope.

Lemma edge_columns_length (v : pd.version) (col : list bool) :
  length (pd.logical_and (pd.BoolCol col)
            (pd.invert_col (shift_fillna v col))) = length col
  ∧ length (pd.logical_and (shift_fillna v col)
              (pd.invert_col (pd.BoolCol col))) = length col.
Proof.
  assert (L : length (pd.fillna false (pd.shift (Some <$> col)))
              = length col).
  { unfold pd.fillna, pd.shift.
    rewrite length_fmap, length_take. cbn [length].
    rewrite length_fmap. lia. }
  destruct v; unfold shift_fillna; cbn [pd.invert_col pd.logical_and];
    rewrite !length_zip_with, !length_fmap, L; split; lia.
Qed.

Lemma compute_lengths (v : pd.version) (self : t) (df : list Bar) :
  let out := compute v self df in
  bars out = df
  ∧ length (emaShort out) = length df ∧ length (emaLong out) = length df
  ∧ length (col_rsi out) = length df
  ∧ length (plusDI out) = length df ∧ length (minusDI out) = length df
  ∧ length (adxVal out) = length df
  ∧ length (strongUpTrend out) = length df
  ∧ length (strongDownTrend out) = length df
  ∧ length (debutHausse out) = length df
  ∧ length (debutBaisse out) = length df
  ∧ length (finHausse out) = length df
  ∧ length (finBaisse out) = length df.
Proof.
  intros out.
  destruct (strong_trend_length v self df) as [Lu Ld]. fold out in Lu, Ld.
  pose proof (ema_length (close <$> df) (ema_short self)) as Hs.
  pose proof (ema_length (close <$> df) (ema_long self)) as Hl.
  pose proof (rsi_length (close <$> df) (rsi_len self)) as Hr.
  rewrite length_fmap in Hs, Hl, Hr.
  destruct (dmi_adx_length (high <$> df) (low <$> df) (close <$> df)
              (adx_len self) (adx_smooth self) (length df))
    as (Hp & Hm & Ha); try apply length_fmap.
  revert Lu Ld. subst out. unfold compute.
  destruct (dmi_adx _ _ _ _ _) as [[pdi mdi] adx]. cbn [fst snd] in Hp, Hm, Ha.
  cbn [bars emaShort emaLong col_rsi plusDI minusDI adxVal strongUpTrend
       strongDownTrend debutHausse debutBaisse finHausse finBaisse].
  intros Lu Ld.
  match type of Lu with length ?su = _ => set (U := su) in * end.
  match type of Ld with length ?sd = _ => set (D := sd) in * end.
  clearbody U D.
  repeat (split; [first [reflexivity|assumption]|]).
  destruct (edge_columns_length v U) as [-> ->].
  destruct (edge_columns_length v D) as [-> ->].
  auto.
Qed.

(** X9.  On every pandas, every column [compute] adds has one cell per bar
    of the window, and the bars themselves are kept. *)
Theorem compute_aligned (v : pd.version) (self : t) (df : list Bar) :
  let out := compute v self df in
  bars out = df
  ∧ length (emaShort out) = length df ∧ length (emaLong out) = length df
  ∧ length (col_rsi out) = length df
  ∧ length (plusDI out) = length df ∧ length (minusDI out) = length df
  ∧ length (adxVal out) = length df
  ∧ length (strongUpTrend out) = length df
  ∧ length (strongDownTrend out) = length df
  ∧ length (debutHausse out) = length df
  ∧ length (debutBaisse out) = length df
  ∧ length (finHausse out) = length df
  ∧ length (finBaisse out) = length df.
Proof. exact (compute_lengths v self df). Qed.

(** A conjunction of columns is [False] where its fourth operand is. *)
Lemma and_false_4 (x d e : list bool) (t : nat) (b : bool) :
  pd.and (pd.and x d) e !! t = Some b → d !! t = Some false → b = false.
Proof.
  unfold pd.and. rewrite !lookup_zip_with. intros H Hd. rewrite Hd in H.
  destruct (x !! t) as [x0|]; [|discriminate].
  destruct (e !! t) as [e0|]; [|discriminate].
  cbn in H. injection H as <-. rewrite andb_false_r. reflexivity.
Qed.

Lemma strong_false_in_warm_up (v : pd.version) (self : t) (df : list Bar)
    (t : nat) :
  0 <= adx_thr self → (t < length df)%nat →
  (t + 2 < adx_len self + adx_smooth self)%nat →
  strongUpTrend (compute v self df) !! t = Some false
  ∧ strongDownTrend (compute v self df) !! t = Some false.
Proof.
  intros Hthr Ht Hw.
  destruct (strong_trend_length v self df) as [Lu Ld].
  destruct (lookup_lt_is_Some_2 (strongUpTrend (compute v self df)) t
              ltac:(lia)) as [up Hup].
  destruct (lookup_lt_is_Some_2 (strongDownTrend (compute v self df)) t
              ltac:(lia)) as [down Hdown].
  destruct (dmi_adx_zero_prefix (high <$> df) (low <$> df) (close <$> df)
              (adx_len self) (adx_smooth self) t) as [_ Ha];
    rewrite ?length_fmap; try reflexivity; try assumption.
  specialize (Ha Hw).
  revert Hup Hdown. unfold compute.
  destruct (dmi_adx _ _ _ _ _) as [[pdi mdi] adx]. cbn [snd] in Ha.
  cbn [strongUpTrend strongDownTrend]. intros Hup Hdown.
  assert (Hd : pd.gt_scalar (pd.nan_free adx) (adx_thr self) !! t
               = Some false).
  { unfold pd.gt_scalar, pd.nan_free. rewrite !list_lookup_fmap, Ha. cbn.
    f_equal. apply Qltb_false. assumption. }
  rewrite (and_false_4 _ _ _ _ _ Hup Hd) in Hup.
  rewrite (and_false_4 _ _ _ _ _ Hdown Hd) in Hdown. auto.
Qed.

Lemma flags_false_in_warm_up (v : pd.version) (self : t) (df : list Bar)
    (t : nat) :
  let out := compute v self df in
  0 <= adx_thr self → (t < length df)%nat →
  (t + 2 < adx_len self + adx_smooth self)%nat →
  strongUpTrend out !! t = Some false
  ∧ strongDownTrend out !! t = Some false
  ∧ debutHausse out !! t = Some false ∧ finHausse out !! t = Some false
  ∧ debutBaisse out !! t = Some false ∧ finBaisse out !! t = Some false.
Proof.
  intros out Hthr Ht Hw.
  destruct (strong_false_in_warm_up v self df t Hthr Ht Hw) as [Hup Hdown].
  fold out in Hup, Hdown.
  assert (Hprev : previous (strongUpTrend out) t = false
                  ∧ previous (strongDownTrend out) t = false).
  { destruct t as [|t']; [split; reflexivity|]. cbn [previous].
    destruct (strong_false_in_warm_up v self df t' Hthr ltac:(lia) ltac:(lia))
      as [Hu Hd]. fold out in Hu, Hd. rewrite Hu, Hd. split; reflexivity. }
  destruct Hprev as [Pu Pd].
  assert (Bf : ∀ p, begin_flag v false p = false)
    by (destruct v; reflexivity).
  assert (Hdh := begin_lookup v _ _ _ Hup).
  assert (Hfh := end_lookup v _ _ _ Hup).
  assert (Hdb := begin_lookup v _ _ _ Hdown).
  assert (Hfb := end_lookup v _ _ _ Hdown).
  rewrite Bf in Hdh, Hdb. rewrite Pu in Hfh. rewrite Pd in Hfb.
  split; [assumption|]. split; [assumption|].
  revert Hdh Hfh Hdb Hfb. subst out. unfold compute.
  destruct (dmi_adx _ _ _ _ _) as [[pdi mdi] adx].
  cbn [strongUpTrend strongDownTrend debutHausse finHausse debutBaisse
       finBaisse]. auto.
Qed.

(** X10.  On every pandas, with a threshold that is not negative, no bar
    of the ADX warm-up (the first 26 with the default lengths) is a strong
    trend or an edge of one. *)
Theorem no_signal_in_warm_up (v : pd.version) (self : t) (df : list Bar)
    (t : nat) :
  let out := compute v self df in
  0 <= adx_thr self → (t < length df)%nat →
  (t + 2 < adx_len self + adx_smooth self)%nat →
  strongUpTrend out !! t = Some false
  ∧ strongDownTrend out !! t = Some false
  ∧ debutHausse out !! t = Some false ∧ finHausse out !! t = Some false
  ∧ debutBaisse out !! t = Some false ∧ finBaisse out !! t = Some false.
Proof. exact (flags_false_in_warm_up v self df t). Qed.

Lemma no_signal_in_warm_up_witness :
  debutHausse (compute pd.pandas2 __init__ Scenario.df_boot) !! 25%nat
  = Some false.
Proof.
  destruct (no_signal_in_warm_up pd.pandas2 __init__ Scenario.df_boot 25)
    as (_ & _ & H & _).
  - vm_compute. discriminate.
  - vm_compute. lia.
  - vm_compute. lia.
  - exact H.
Defined.

(** The row the loop reads from a window still in warm-up carries no
    signal. *)
Lemma iloc_last_warm_up (v : pd.version) (self : t) (df : list Bar)
    (row : Row) :
  0 <= adx_thr self →
  (length df + 1 < adx_len self + adx_smooth self)%nat →
  iloc_last (compute v self df) = Return row →
  row_debutHausse row = false ∧ row_debutBaisse row = false
  ∧ row_finHausse row = false ∧ row_finBaisse row = false.
Proof.
  intros Hthr Hw. unfold iloc_last, Py.iloc_last.
  destruct (compute_lengths v self df)
    as (Hb & _ & _ & _ & _ & _ & _ & _ & _ & L1 & L2 & L3 & L4).
  rewrite !last_lookup, L1, L2, L3, L4, Hb, length_fmap.
  destruct df as [|b0 df'] eqn:Edf; [cbn; discriminate|]. rewrite <- Edf in *.
  assert (Ht : (Init.Nat.pred (length df) < length df)%nat)
    by (rewrite Edf; cbn; lia).
  destruct (flags_false_in_warm_up v self df (Init.Nat.pred (length df)) Hthr Ht
              ltac:(lia)) as (_ & _ & -> & -> & -> & ->).
  rewrite list_lookup_fmap.
  destruct (df !! Init.Nat.pred (length df)) as [b|]; cbn; [|discriminate].
  intros [= <-]. cbn. auto.
Qed.

(** Up and down exclude each other: the short EMA cannot be both above and
    below the long one. *)
Lemma strong_exclusive (v : pd.version) (self : t) (df : list Bar)
    (t : nat) :
  strongUpTrend (compute v self df) !! t = Some true →
  strongDownTrend (compute v self df) !! t = Some true → False.
Proof.
  unfold compute. destruct (dmi_adx _ _ _ _ _) as [[pdi mdi] adx].
  cbn [strongUpTrend strongDownTrend].
  unfold pd.and, pd.gt, pd.lt. rewrite !lookup_zip_with.
  destruct (pd.nan_free (ema (close <$> df) (ema_short self)) !! t)
    as [es|]; [|discriminate].
  destruct (pd.nan_free (ema (close <$> df) (ema_long self)) !! t)
    as [el|]; [|discriminate].
  cbn [mbind option_bind].
  destruct (pd.cmp2 (λ x y : Q, Qltb y x) es el) eqn:Egt.
  - assert (Elt : pd.cmp2 Qltb es el = false).
    { destruct es as [a|], el as [b|]; try discriminate. cbn in *.
      apply Qltb_true in Egt. apply Qltb_false. lra. }
    rewrite Elt. intros _ H.
    repeat match type of H with
           | context [?l !! t] =>
               destruct (l !! t); cbn in H; [|discriminate]
           end.
    discriminate.
  - intros H _.
    repeat match type of H with
           | context [?l !! t] =>
               destruct (l !! t); cbn in H; [|discriminate]
           end.
    discriminate.
Qed.

(** X11.  On every pandas, a bar that carries [debutHausse] carries neither
    [finHausse] nor [debutBaisse]: the signal to enter and the signals to
    exit never fire together.  On pandas 3 that covers every bar of a
    strong uptrend, not only its first. *)
Theorem entry_excludes_exit (v : pd.version) (self : t) (df : list Bar)
    (t : nat) :
  let out := compute v self df in
  debutHausse out !! t = Some true →
  finHausse out !! t = Some false ∧ debutBaisse out !! t = Some false.
Proof.
  intros out Hdh.
  pose proof (lookup_lt_Some _ _ _ Hdh) as Ht.
  destruct (compute_lengths v self df)
    as (_ & _ & _ & _ & _ & _ & _ & Lu & Ld & Ldh & _).
  fold out in Lu, Ld, Ldh. rewrite Ldh in Ht.
  destruct (lookup_lt_is_Some_2 (strongUpTrend out) t ltac:(lia))
    as [up Hup].
  destruct (lookup_lt_is_Some_2 (strongDownTrend out) t ltac:(lia))
    as [down Hdown].
  assert (Hb := begin_lookup v _ _ _ Hup).
  assert (Hfh := end_lookup v _ _ _ Hup).
  assert (Hdb := begin_lookup v _ _ _ Hdown).
  assert (E : debutHausse out !! t
              = Some (begin_flag v up (previous (strongUpTrend out) t))
            ∧ finHausse out !! t
              = Some (previous (strongUpTrend out) t && negb up)
            ∧ debutBaisse out !! t
              = Some (begin_flag v down
                        (previous (strongDownTrend out) t))).
  { revert Hb Hfh Hdb. subst out. unfold compute.
    destruct (dmi_adx _ _ _ _ _) as [[pdi mdi] adx].
    cbn [strongUpTrend strongDownTrend debutHausse finHausse debutBaisse].
    auto. }
  destruct E as (E1 & E2 & E3).
  assert (Hex : up = true → down = true → False).
  { intros Eu Ed. rewrite Eu in Hup. rewrite Ed in Hdown.
    exact (strong_exclusive v self df t Hup Hdown). }
  clear Hup Hdown Hb Hfh Hdb. clearbody out.
  rewrite E1 in Hdh. injection Hdh as Hdh.
  assert (Eu : up = true) by (destruct v, up; cbn in Hdh; congruence).
  rewrite E2, E3, Eu. cbn [negb]. rewrite andb_false_r.
  split; [reflexivity|].
  destruct down; [exfalso; auto|]. destruct v; reflexivity.
Qed.

Lemma entry_excludes_exit_witness :
  finHausse (compute pd.pandas3 __init__ df_trend) !! 27%nat = Some false
  ∧ debutBaisse (compute pd.pandas3 __init__ df_trend) !! 27%nat
    = Some false.
Proof.
  apply (entry_excludes_exit pd.pandas3 __init__ df_trend 27).
  vm_compute. reflexivity.
Defined.

End ClassifierMore.

(** ** Execution engine *)

Section Engine.
Import Bot.
Local Open Scope Q_scope.

(** Symbolic execution of one tick: unfold the monad, then split on every
    answer of the environment and every test of the loop body. *)
Ltac unfold_tick :=
  cbv beta iota zeta delta
      [exec tick boot try_except loop_body bind ret raise of_result get_self
       modify_self modify_db call write dblog fetch_klines_df
       symbol_filters _compute_qty _buy_market _sell_market _set_long
       _set_flat insert_trade handler with_dry_run sent recorded logged
       self db requests fst snd].

Ltac reduce_world :=
  cbv beta iota zeta delta
      [self db requests fst snd set_position set_last_close_time
       symbol interval risk_pct max_pos testnet dry_run strat pos_side
       pos_qty entry_price last_close_time
       storage.log storage.insert_trade storage.upsert_position
       storage.clear_position storage.trades storage.positions storage.logs].

Ltac case_step :=
  match goal with
  | |- context [match ?x with _ => _ end] =>
      lazymatch x with
      | context [match _ with _ => _ end] => fail
      | _ => destruct x eqn:?
      end
  end; reduce_world.

Ltac run_tick := unfold_tick; reduce_world; repeat case_step.

Lemma tick_Inv (env : Env) (w : World) :
  Inv (self w) → Inv (self (exec (tick env) w)).
Proof.
  destruct w as [[] d rq]. unfold Inv. intros [HF HL]. run_tick.
  all: split; intros; try discriminate; try reflexivity; auto.
  all: try (apply Qltb_true; assumption).
Qed.

Lemma observable_Inv (d0 : storage.db) (w : World) :
  observable d0 w → Inv (self w).
Proof.
  induction 1 as [sy iv rp mp tn dr env w Hboot | env w Hobs IH].
  - revert Hboot. unfold __init__. run_tick.
    all: intros [= <-]; split; intros; try discriminate; reflexivity.
  - apply tick_Inv, IH.
Qed.

(** Every exception of the loop body is caught: a tick returns. *)
Lemma tick_returns (env : Env) (w : World) : (tick env w).1 = Return tt.
Proof.
  destruct w as [[] d rq].
  unfold tick, try_except. destruct (loop_body env _) as [[[]|e] w'].
  - reflexivity.
  - unfold handler. destruct (is_binance e); reflexivity.
Qed.

(** Inside the loop the last processed close time is set. *)
Lemma observable_last_close_time (d0 : storage.db) (w : World) :
  observable d0 w → is_Some (last_close_time (self w)).
Proof.
  induction 1 as [sy iv rp mp tn dr env w Hboot | env w Hobs IH].
  - revert Hboot. unfold __init__. run_tick.
    all: intros H; inversion H; subst; eexists; reflexivity.
  - destruct w as [[] d rq]. cbn [self last_close_time] in IH.
    run_tick. all: first [assumption | eexists; reflexivity].
Qed.

(** The worlds [run] goes through are the observable ones. *)
Lemma loop_observable (d0 : storage.db) (ticks : list Env) (w : World) :
  observable d0 w → observable d0 (exec (loop ticks) w).
Proof.
  revert w. induction ticks as [|env rest IH]; intros w Hobs.
  - exact Hobs.
  - unfold exec. cbn [loop]. unfold bind.
    pose proof (tick_returns env w) as Hr.
    destruct (tick env w) as [r w'] eqn:E. cbn [fst] in Hr. subst r.
    apply IH. replace w' with (exec (tick env) w)
      by (unfold exec; rewrite E; reflexivity).
    apply observable_tick, Hobs.
Qed.

Ltac norm_lists :=
  rewrite <- ?app_assoc; rewrite ?drop_app_length, ?drop_all; cbn [app].

Ltac invert_elem :=
  repeat match goal with
         | H : _ ∈ [] |- _ => apply elem_of_nil in H; contradiction
         | H : _ ∈ _ :: _ |- _ => apply elem_of_cons in H as [H | H]
         end.

(** C5.  Between iterations the position is FLAT exactly when nothing is
    held.  Within a tick a BUY order or entry record starts from FLAT and
    leaves the position LONG with the recorded quantity; a SELL order or
    exit record starts from LONG, is for the whole quantity held, and leaves
    the position FLAT.  The position changes side in no other way: a tick
    that takes it from LONG to FLAT has sold the whole quantity held, by an
    order the exchange accepted or, in a dry run, by the [DRY_RUN SELL] line
    for that quantity, and has recorded the exit; a tick that takes it from
    FLAT to LONG has bought the quantity now held in the same way. *)
Theorem position_state_machine (d0 : storage.db) (w : World) :
  observable d0 w →
  (pos_side (self w) = FLAT ↔ pos_qty (self w) == 0) ∧
  ∀ env : Env,
    let w' := exec (tick env) w in
    (pos_side (self w') = FLAT ↔ pos_qty (self w') == 0) ∧
    (∀ q, CreateOrder "BUY" q ∈ sent w w' → pos_side (self w) = FLAT) ∧
    (∀ q, CreateOrder "SELL" q ∈ sent w w' →
          pos_side (self w) = LONG ∧ q = pos_qty (self w)) ∧
    (∀ tr, tr ∈ recorded w w' → storage.side tr = "BUY"%string →
           pos_side (self w) = FLAT ∧ pos_side (self w') = LONG ∧
           pos_qty (self w') = storage.qty tr) ∧
    (∀ tr, tr ∈ recorded w w' → storage.side tr = "SELL"%string →
           pos_side (self w) = LONG ∧ storage.qty tr = pos_qty (self w) ∧
           pos_side (self w') = FLAT) ∧
    (pos_side (self w) = FLAT → pos_side (self w') = LONG →
       ∃ tr, recorded w w' = [tr] ∧ storage.side tr = "BUY"%string
             ∧ storage.qty tr = pos_qty (self w')
             ∧ if dry_run (self w)
               then storage.mkLog (Some (symbol (self w))) "INFO"
                      (msg_dry_run "BUY" (pos_qty (self w')))
                    ∈ logged w w'
                    ∧ ∀ r, r ∈ sent w w' → is_order r = false
               else CreateOrder "BUY" (pos_qty (self w')) ∈ sent w w'
                    ∧ ∃ resp, create_order env = Return resp) ∧
    (pos_side (self w) = LONG → pos_side (self w') = FLAT →
       ∃ tr, recorded w w' = [tr] ∧ storage.side tr = "SELL"%string
             ∧ storage.qty tr = pos_qty (self w)
             ∧ if dry_run (self w)
               then storage.mkLog (Some (symbol (self w))) "INFO"
                      (msg_dry_run "SELL" (pos_qty (self w)))
                    ∈ logged w w'
                    ∧ ∀ r, r ∈ sent w w' → is_order r = false
               else CreateOrder "SELL" (pos_qty (self w)) ∈ sent w w'
                    ∧ ∃ resp, create_order env = Return resp).
Proof.
  intros Hobs.
  assert (Hiff : ∀ b, Inv b → pos_side b = FLAT ↔ pos_qty b == 0).
  { intros b [HF HL]. split.
    - intros E. rewrite (HF E). reflexivity.
    - intros E. destruct (pos_side b); [reflexivity|].
      specialize (HL eq_refl). lra. }
  pose proof (observable_Inv _ _ Hobs) as HI.
  split; [apply Hiff, HI|]. intros env w'.
  split; [apply Hiff, tick_Inv, HI|].
  subst w'. destruct HI as [HF HL]. clear Hiff Hobs.
  destruct w as [[] d rq]. cbn [self pos_side pos_qty] in HF, HL.
  run_tick.
  all: norm_lists.
  all: repeat split; intros; invert_elem; simplify_eq; try done.
  all: try (eexists; split; [reflexivity|]; split; [reflexivity|];
            split; [reflexivity|]; split;
            [repeat first [apply list_elem_of_here
                          |apply list_elem_of_further]
            |first [eexists; reflexivity
                   |intros r Hin; invert_elem; subst r; reflexivity]]).
  all: match goal with
       | H : Qltb 0 _ = false, L : LONG = LONG → _ |- _ =>
           apply Qltb_false in H; specialize (L eq_refl); lra
       end.
Qed.

(** *** Profit and loss of a round trip *)

Lemma snoc_split {A : Type} (l pre post : list A) (t b s : A) :
  l ++ [t] = pre ++ b :: s :: post →
  (post = [] ∧ s = t ∧ l = pre ++ [b])
  ∨ (∃ post', post = post' ++ [t] ∧ l = pre ++ b :: s :: post').
Proof.
  destruct post as [|x post _] using rev_ind; intros E.
  - left. change (pre ++ [b; s]) with (pre ++ [b] ++ [s]) in E.
    rewrite app_assoc in E. apply app_inj_tail in E as [-> ->]. auto.
  - right. exists post.
    change (pre ++ b :: s :: post ++ [x])
      with (pre ++ (b :: s :: post) ++ [x]) in E.
    rewrite app_assoc in E. apply app_inj_tail in E as [-> ->]. auto.
Qed.

Lemma ledger_ok_last_entry (sym : string) l q p :
  ledger_ok sym l LONG q p → ∃ l', l = l' ++ [entry_record sym q p].
Proof. inversion 1; subst. eexists; reflexivity. Qed.

Lemma ledger_ok_flat (sym : string) l q p :
  ledger_ok sym l FLAT q p → q = 0 ∧ p = 0.
Proof. inversion 1; subst; auto. Qed.

Lemma ledger_ok_long (sym : string) l q p :
  ledger_ok sym l LONG q p → 0 < q.
Proof. inversion 1; subst; auto. Qed.

Lemma ledger_ok_pairs (sym : string) l sd q p :
  ledger_ok sym l sd q p →
  ∀ pre b s post,
    l = pre ++ b :: s :: post →
    storage.side b = "BUY"%string → storage.side s = "SELL"%string →
    storage.pnl s
    = Some ((storage.price s - storage.price b) * storage.qty b)
    ∧ storage.pnl b = None ∧ storage.qty s = storage.qty b.
Proof.
  induction 1 as [|l q p Hok IH Hq|l q p p2 Hok IH];
    intros pre b s post E Hb Hs.
  - destruct pre; discriminate.
  - apply snoc_split in E as [(-> & -> & ->)|(post' & -> & ->)].
    + discriminate.
    + eapply IH; eauto.
  - apply snoc_split in E as [(-> & -> & ->)|(post' & -> & ->)].
    + apply ledger_ok_last_entry in Hok as [l' E'].
      apply app_inj_tail in E' as [_ ->]. cbn. auto.
    + eapply IH; eauto.
Qed.

Lemma ledger_ok_exit_follows_entry (sym : string) l sd q p :
  ledger_ok sym l sd q p →
  ∀ pre s post,
    l = pre ++ s :: post → storage.side s = "SELL"%string →
    ∃ pre' b, pre = pre' ++ [b] ∧ storage.side b = "BUY"%string.
Proof.
  induction 1 as [|l q p Hok IH Hq|l q p p2 Hok IH]; intros pre s post E Hs.
  - destruct pre; discriminate.
  - destruct post as [|x post _] using rev_ind.
    + apply app_inj_tail in E as [_ <-]. discriminate.
    + change (pre ++ s :: post ++ [x]) with (pre ++ (s :: post) ++ [x]) in E.
      rewrite app_assoc in E. apply app_inj_tail in E as [-> _].
      eapply IH; eauto.
  - destruct post as [|x post _] using rev_ind.
    + apply app_inj_tail in E as [<- _].
      apply ledger_ok_last_entry in Hok as [l' ->]. eauto.
    + change (pre ++ s :: post ++ [x]) with (pre ++ (s :: post) ++ [x]) in E.
      rewrite app_assoc in E. apply app_inj_tail in E as [-> _].
      eapply IH; eauto.
Qed.

Lemma tick_paired (d0 : storage.db) (env : Env) (w : World) :
  paired d0 w → paired d0 (exec (tick env) w).
Proof.
  destruct w as [[] [tr ps lg] rq]. unfold paired.
  cbn [self db symbol pos_side pos_qty entry_price storage.trades].
  intros (new & -> & Hok). run_tick.
  all: try match goal with
           | H : ledger_ok _ _ FLAT _ _ |- _ =>
               destruct (ledger_ok_flat _ _ _ _ H) as [-> ->]
           end.
  all: try (exists new; split; [reflexivity|assumption]).
  all: try (apply ledger_ok_long in Hok;
            match goal with H : Qltb 0 _ = false |- _ =>
              apply Qltb_false in H; lra end).
  all: eexists; (split; [rewrite <- app_assoc; reflexivity|]).
  all: first [ apply ledger_exit; assumption
             | apply ledger_entry; [assumption|apply Qltb_true; assumption] ].
Qed.

(** C6.  In the rows a run has added to table [trades], a BUY row followed
    by a SELL row is an entry without pnl and its exit, for the same
    quantity, with pnl = (exit price - entry price) * quantity; and every
    SELL row does follow a BUY row. *)
Theorem exit_pnl (d0 : storage.db) (w : World) :
  observable d0 w →
  let new := drop (length (storage.trades d0)) (storage.trades (db w)) in
  (∀ pre b s post,
     new = pre ++ b :: s :: post →
     storage.side b = "BUY"%string → storage.side s = "SELL"%string →
     storage.pnl s
     = Some ((storage.price s - storage.price b) * storage.qty b)
     ∧ storage.pnl b = None ∧ storage.qty s = storage.qty b)
  ∧ (∀ pre s post,
       new = pre ++ s :: post → storage.side s = "SELL"%string →
       ∃ pre' b, pre = pre' ++ [b] ∧ storage.side b = "BUY"%string).
Proof.
  intros Hobs new.
  assert (Hp : paired d0 w).
  { clear new. induction Hobs as [sy iv rp mp tn dr env w Hboot | env w _ IH].
    - apply (f_equal snd) in Hboot. cbn [snd] in Hboot. subst w.
      exists []. unfold __init__. run_tick.
      all: split; [rewrite app_nil_r; reflexivity|constructor].
    - apply tick_paired, IH. }
  destruct Hp as (l & E & Hok). subst new. rewrite E, drop_app_length.
  split.
  - eapply ledger_ok_pairs; eassumption.
  - eapply ledger_ok_exit_follows_entry; eassumption.
Qed.

(** *** Dedup of a bar already processed *)

(** C7.  When the newest close time of the fetched window is not after the
    last processed one, the tick does nothing but the fetch: the bot (its
    position and last close time) and the ledger (trades, positions, logs)
    are as before, and no other request is sent. *)
Theorem stale_tick_is_skipped (env : Env) (w : World) (df : list Bar)
    (nct last : Z) :
  get_klines env = Return df →
  Py.iloc_last (close_time <$> df) = Return nct →
  last_close_time (self w) = Some last →
  (nct <= last)%Z →
  tick env w = (Return tt, mkWorld (self w) (db w) (requests w ++ [GetKlines])).
Proof.
  destruct w as [b d rq]. cbn [self db requests].
  intros Hk Hn Hl Hle. unfold_tick.
  rewrite Hk, Hn. cbv beta iota. rewrite Hl.
  unfold stale. apply Z.leb_le in Hle. rewrite Hle. reflexivity.
Qed.

(** *** Errors of the exchange *)






(** *** Dry run against live run *)

(** C10, as the code has it.  On a tick whose order, if one is sent, is
    accepted by the exchange, the dry run and the live run write the same
    trades and position rows and reach the same position and last close
    time.  The dry run sends no order and otherwise the same requests; its
    log differs in the order line alone. *)
Theorem dry_run_matches_live (env : Env) (w : World) (resp : string) :
  create_order env = Return resp →
  let wd := exec (tick env) (with_dry_run true w) in
  let wl := exec (tick env) (with_dry_run false w) in
  storage.trades (db wd) = storage.trades (db wl)
  ∧ storage.positions (db wd) = storage.positions (db wl)
  ∧ same_position (self wl) (self wd)
  ∧ last_close_time (self wd) = last_close_time (self wl)
  ∧ (∀ r, r ∈ sent (with_dry_run true w) wd → is_order r = false)
  ∧ sent (with_dry_run true w) wd
    = List.filter (λ r, negb (is_order r)) (sent (with_dry_run false w) wl)
  ∧ logged (with_dry_run false w) wl
    = live_line resp <$> logged (with_dry_run true w) wd.
Proof.
  intros Hresp wd wl. subst wd wl. destruct w as [[] [tr ps lg] rq].
  unfold same_position. run_tick.
  all: simplify_eq.
  all: norm_lists.
  all: repeat split; try reflexivity.
  all: intros; invert_elem; subst; reflexivity.
Qed.

(** C10, as stated, fails when the exchange rejects the live order: the
    live run ends in the [except] clause with no trade, the dry run records
    the entry. *)
Lemma dry_run_equivalent_counterexample :
  ¬ AsStated.dry_run_equivalent Scenario.env_order_rejected
      (Scenario.w_flat false).
Proof. intros [E _]. vm_compute in E. discriminate. Qed.

(** *** The scenario run *)

(** The worlds of the scenario are reached by [boot] and [tick]. *)
Ltac scenario_observable :=
  unfold Scenario.w_closed, Scenario.w_long, Scenario.w_flat, Scenario.w_init;
  repeat apply observable_tick;
  lazymatch goal with
  | |- observable _
         (exec (boot ?env) (mkWorld (__init__ ?s ?i ?r ?m ?t ?d) _ _)) =>
      apply (observable_boot _ s i r m t d env)
  end;
  vm_compute; reflexivity.

(** Scenario 2 of the specification: in at 100 for 1.0, out at 110, pnl
    10, flat again. *)
Example scenario2 :
  ∃ b s,
    storage.trades (db (Scenario.w_closed false)) = [b; s]
    ∧ storage.qty b == 1 ∧ storage.price b == 100
    ∧ storage.qty s == 1 ∧ storage.price s == 110
    ∧ (∃ p, storage.pnl s = Some p ∧ p == 10)
    ∧ pos_side (self (Scenario.w_long false)) = LONG
    ∧ pos_side (self (Scenario.w_closed false)) = FLAT.
Proof.
  eexists _, _. split; [vm_compute; reflexivity|].
  repeat split; try (vm_compute; reflexivity).
  eexists. split; vm_compute; reflexivity.
Qed.

Lemma position_state_machine_witness :
  (pos_side (self (Scenario.w_long false)) = FLAT
   ↔ pos_qty (self (Scenario.w_long false)) == 0)
  ∧ (∀ q, CreateOrder "SELL" q
          ∈ sent (Scenario.w_long false) (Scenario.w_closed false) →
          pos_side (self (Scenario.w_long false)) = LONG
          ∧ q = pos_qty (self (Scenario.w_long false)))
  ∧ CreateOrder "SELL" (pos_qty (self (Scenario.w_long false)))
    ∈ sent (Scenario.w_long false) (Scenario.w_closed false).
Proof.
  destruct (position_state_machine Scenario.no_trades (Scenario.w_long false))
    as [H1 H2]; [scenario_observable|].
  split; [exact H1|].
  destruct (H2 (Scenario.env_ok Scenario.df_exit 0))
    as (_ & _ & H3 & _ & _ & _ & H7).
  split; [exact H3|].
  assert (HL : pos_side (self (Scenario.w_long false)) = LONG)
    by (vm_compute; reflexivity).
  assert (HF : pos_side (self (exec (tick (Scenario.env_ok Scenario.df_exit 0))
                                    (Scenario.w_long false))) = FLAT)
    by (vm_compute; reflexivity).
  destruct (H7 HL HF) as (tr & _ & _ & _ & Hs).
  replace (dry_run (self (Scenario.w_long false))) with false in Hs
    by (vm_compute; reflexivity).
  destruct Hs as [Hs _]. exact Hs.
Defined.

Lemma exit_pnl_witness :
  ∃ b s,
    storage.trades (db (Scenario.w_closed true)) = [b; s]
    ∧ storage.pnl s
      = Some ((storage.price s - storage.price b) * storage.qty b)
    ∧ storage.pnl b = None.
Proof.
  eexists _, _. split; [vm_compute; reflexivity|].
  destruct (exit_pnl Scenario.no_trades (Scenario.w_closed true))
    as [H _]; [scenario_observable|].
  destruct (H [] _ _ [] ltac:(vm_compute; reflexivity)
              ltac:(reflexivity) ltac:(reflexivity)) as (Hp & Hb & _).
  split; [exact Hp|exact Hb].
Defined.

Lemma stale_tick_is_skipped_witness :
  tick (Scenario.env_ok Scenario.df_boot 0) (Scenario.w_flat true)
  = (Return tt,
     mkWorld (self (Scenario.w_flat true)) (db (Scenario.w_flat true))
             (requests (Scenario.w_flat true) ++ [GetKlines])).
Proof.
  apply (stale_tick_is_skipped _ _ Scenario.df_boot 1559999 1559999).
  - reflexivity.
  - vm_compute. reflexivity.
  - vm_compute. reflexivity.
  - lia.
Defined.


Lemma dry_run_matches_live_witness :
  storage.trades
    (db (exec (tick (Scenario.env_ok Scenario.df_entry 100))
              (with_dry_run true (Scenario.w_flat false))))
  = storage.trades
      (db (exec (tick (Scenario.env_ok Scenario.df_entry 100))
                (with_dry_run false (Scenario.w_flat false)))).
Proof.
  destruct (dry_run_matches_live (Scenario.env_ok Scenario.df_entry 100)
              (Scenario.w_flat false) "FILLED" eq_refl) as (H & _).
  exact H.
Defined.

(** *** Further properties of the loop *)

(** A tick that fetched a window leaves the last close time at or after the
    close of the newest bar of that window. *)
Lemma tick_last_close_time (env : Env) (w : World) (df : list Bar) (nct : Z) :
  get_klines env = Return df →
  Py.iloc_last (close_time <$> df) = Return nct →
  ∃ l, last_close_time (self (exec (tick env) w)) = Some l ∧ (nct <= l)%Z.
Proof.
  destruct w as [[] d rq]. intros Hk Hn. unfold_tick.
  rewrite Hk, Hn. cbv beta iota. reduce_world. repeat case_step.
  all: try (eexists; split; [reflexivity|lia]).
  all: unfold stale in *; destruct last_close_time0 as [l|]; [|discriminate].
  all: exists l; split; [reflexivity|]; apply Z.leb_le; assumption.
Qed.

(** X12.  Lines 142-146.  The last close time never moves backwards; when it
    moves, it is to the close of the newest bar fetched; and a tick that
    leaves it where it was has changed nothing of the bot, the trades or
    the positions, and has sent nothing but the bar fetch. *)
Theorem last_close_time_monotone (env : Env) (w : World) (l : Z) :
  let w' := exec (tick env) w in
  last_close_time (self w) = Some l →
  ∃ l', last_close_time (self w') = Some l' ∧ (l <= l')%Z
    ∧ (l' ≠ l →
       ∃ df, get_klines env = Return df
             ∧ Py.iloc_last (close_time <$> df) = Return l')
    ∧ (l' = l →
       self w' = self w
       ∧ storage.trades (db w') = storage.trades (db w)
       ∧ storage.positions (db w') = storage.positions (db w)
       ∧ sent w w' = [GetKlines]).
Proof.
  intros w'. subst w'. destruct w as [[] [tr ps lg] rq].
  cbn [self last_close_time]. intros ->. run_tick.
  all: norm_lists.
  all: unfold stale in *.
  all: try match goal with
           | H : (_ <=? _)%Z = false |- _ => apply Z.leb_gt in H
           end.
  all: eexists; split; [reflexivity|]; split; [lia|].
  all: split; [intros Hne; try congruence; eexists; split; eauto
              |intros He; try lia; auto].
Qed.

Lemma last_close_time_monotone_witness :
  ∃ l', last_close_time
          (self (exec (tick (Scenario.env_ok Scenario.df_entry 100))
                      (Scenario.w_flat true))) = Some l'
        ∧ (1559999 <= l')%Z.
Proof.
  destruct (last_close_time_monotone (Scenario.env_ok Scenario.df_entry 100)
              (Scenario.w_flat true) 1559999 ltac:(vm_compute; reflexivity))
    as (l' & H1 & H2 & _).
  exists l'. split; [exact H1|exact H2].
Defined.

(** X13.  Lines 142-146.  Two ticks in a row whose windows end on the same bar,
    or the second on an older one: the second tick fetches the window and
    does nothing else. *)
Theorem same_bar_twice (env1 env2 : Env) (w : World) (df1 df2 : list Bar)
    (nct1 nct2 : Z) :
  let w1 := exec (tick env1) w in
  get_klines env1 = Return df1 →
  Py.iloc_last (close_time <$> df1) = Return nct1 →
  get_klines env2 = Return df2 →
  Py.iloc_last (close_time <$> df2) = Return nct2 →
  (nct2 <= nct1)%Z →
  tick env2 w1
  = (Return tt, mkWorld (self w1) (db w1) (requests w1 ++ [GetKlines])).
Proof.
  intros w1 Hk1 Hn1 Hk2 Hn2 Hle.
  destruct (tick_last_close_time env1 w df1 nct1 Hk1 Hn1) as (l & Hl & Hnl).
  fold w1 in Hl. clearbody w1. destruct w1 as [b d rq].
  cbn [self db requests] in *. unfold_tick.
  rewrite Hk2, Hn2. cbv beta iota. rewrite Hl.
  unfold stale. replace (nct2 <=? l)%Z with true; [reflexivity|].
  symmetry. apply Z.leb_le. lia.
Qed.

Lemma same_bar_twice_witness :
  tick (Scenario.env_ok Scenario.df_entry 100)
       (exec (tick (Scenario.env_ok Scenario.df_entry 100))
             (Scenario.w_flat false))
  = (Return tt,
     mkWorld
       (self (exec (tick (Scenario.env_ok Scenario.df_entry 100))
                   (Scenario.w_flat false)))
       (db (exec (tick (Scenario.env_ok Scenario.df_entry 100))
                 (Scenario.w_flat false)))
       (requests (exec (tick (Scenario.env_ok Scenario.df_entry 100))
                       (Scenario.w_flat false)) ++ [GetKlines])).
Proof.
  assert (Hn : Py.iloc_last (close_time <$> Scenario.df_entry)
               = Return 1619999%Z) by (vm_compute; reflexivity).
  exact (same_bar_twice (Scenario.env_ok Scenario.df_entry 100)
           (Scenario.env_ok Scenario.df_entry 100) (Scenario.w_flat false)
           Scenario.df_entry Scenario.df_entry 1619999 1619999
           eq_refl Hn eq_refl Hn (Z.le_refl _)).
Defined.

(** X14.  Lines 164-179.  One tick writes at most one trade and sends at most one
    order, each for a positive quantity; the trade carries the bot's symbol
    and a notional of quantity times price; and a live tick that writes a
    trade has sent the order of the same side and quantity. *)
Theorem one_order_per_tick (env : Env) (w : World) :
  let w' := exec (tick env) w in
  (length (recorded w w') <= 1)%nat
  ∧ (length (List.filter is_order (sent w w')) <= 1)%nat
  ∧ (∀ side q, CreateOrder side q ∈ sent w w' → 0 < q)
  ∧ (∀ tr, tr ∈ recorded w w' →
       0 < storage.qty tr
       ∧ storage.symbol tr = symbol (self w)
       ∧ storage.notional tr = storage.qty tr * storage.price tr
       ∧ (dry_run (self w) = false →
          CreateOrder (storage.side tr) (storage.qty tr) ∈ sent w w')).
Proof.
  intros w'. subst w'. destruct w as [[] [tr ps lg] rq]. run_tick.
  all: norm_lists.
  all: repeat match goal with
              | H : Qltb _ _ = true |- _ => apply Qltb_true in H
              end.
  all: split; [cbn; lia|]; split; [cbn; lia|].
  all: split; [intros sd q' Hin|intros t' Hin]; invert_elem;
    simplify_eq; cbn [storage.qty storage.symbol storage.notional
                      storage.price storage.side]; auto.
  all: repeat split; auto; try discriminate; intros _; set_solver.
Qed.

Lemma one_order_per_tick_witness :
  (length (recorded (Scenario.w_flat false)
             (exec (tick (Scenario.env_ok Scenario.df_entry 100))
                   (Scenario.w_flat false))) <= 1)%nat.
Proof.
  destruct (one_order_per_tick (Scenario.env_ok Scenario.df_entry 100)
              (Scenario.w_flat false)) as (H & _).
  exact H.
Defined.

(** X15.  Lines 141-184.  What a tick leaves alone.  The trades and the logs only
    grow, by rows that carry the bot's symbol; the position rows of other
    symbols are untouched; the requests already sent stay, and the first
    new one is the bar fetch; the configuration of the bot is unchanged. *)
Theorem tick_frame (env : Env) (w : World) :
  let w' := exec (tick env) w in
  (∃ rows, storage.trades (db w') = storage.trades (db w) ++ rows
           ∧ Forall (λ r, storage.symbol r = symbol (self w)) rows)
  ∧ (∃ lines, storage.logs (db w') = storage.logs (db w) ++ lines
              ∧ Forall (λ r, storage.log_symbol r = Some (symbol (self w)))
                       lines)
  ∧ (∀ k, k ≠ symbol (self w) →
       storage.positions (db w') !! k = storage.positions (db w) !! k)
  ∧ (∃ rest, requests w' = requests w ++ GetKlines :: rest)
  ∧ symbol (self w') = symbol (self w)
  ∧ interval (self w') = interval (self w)
  ∧ risk_pct (self w') = risk_pct (self w)
  ∧ max_pos (self w') = max_pos (self w)
  ∧ testnet (self w') = testnet (self w)
  ∧ dry_run (self w') = dry_run (self w)
  ∧ strat (self w') = strat (self w).
Proof.
  intros w'. subst w'. destruct w as [[] [tr ps lg] rq]. run_tick.
  all: rewrite <- ?app_assoc; cbn [app].
  all: split;
    [first [exists []; split; [symmetry; apply app_nil_r|constructor]
           |eexists; split; [reflexivity|repeat constructor]]|].
  all: split;
    [first [exists []; split; [symmetry; apply app_nil_r|constructor]
           |eexists; split; [reflexivity|repeat constructor]]|].
  all: split;
    [intros k Hk;
     first [reflexivity
           |apply lookup_insert_ne; congruence
           |apply lookup_delete_ne; congruence]|].
  all: split; [eexists; reflexivity|].
  all: repeat split.
Qed.

Lemma tick_frame_witness :
  storage.positions
    (db (exec (tick (Scenario.env_ok Scenario.df_entry 100))
              (Scenario.w_flat false))) !! "ETHUSDT"%string
  = storage.positions (db (Scenario.w_flat false)) !! "ETHUSDT"%string.
Proof.
  destruct (tick_frame (Scenario.env_ok Scenario.df_entry 100)
              (Scenario.w_flat false)) as (_ & _ & H & _).
  apply H. vm_compute. discriminate.
Defined.

(** X16.  Lines 43-46 and 209.  While FLAT, a tick on which the exchange does not
    know the symbol sends no order, writes no trade and leaves the position
    as it was; the loop logs [Symbole introuvable] and goes on. *)
Theorem unknown_symbol_no_entry (env : Env) (w : World) :
  let w' := exec (tick env) w in
  pos_side (self w) = FLAT →
  get_symbol_info env = Return None →
  same_position (self w) (self w')
  ∧ recorded w w' = []
  ∧ storage.positions (db w') = storage.positions (db w)
  ∧ (∀ r, r ∈ sent w w' → is_order r = false)
  ∧ (GetSymbolInfo ∈ sent w w' →
     (tick env w).1 = Return tt
     ∧ last (storage.logs (db w'))
       = Some (storage.mkLog (Some (symbol (self w))) "ERROR"
                 (msg_loop (RuntimeError "Symbole introuvable")))).
Proof.
  intros w'. subst w'. destruct w as [[] [tr ps lg] rq].
  cbn [self pos_side]. intros -> Hinfo. unfold same_position.
  unfold_tick. rewrite Hinfo. reduce_world. repeat case_step.
  all: norm_lists.
  all: split; [repeat split|]; split; [reflexivity|]; split; [reflexivity|].
  all: split; [intros r Hin; invert_elem; subst r; reflexivity|].
  all: intros Hin; invert_elem; try discriminate.
  all: split; [reflexivity|rewrite ?last_app; reflexivity].
Qed.

Lemma unknown_symbol_no_entry_witness :
  recorded (Scenario.w_flat false)
    (exec (tick env_unknown_symbol) (Scenario.w_flat false)) = []
  ∧ storage.positions
      (db (exec (tick env_unknown_symbol) (Scenario.w_flat false)))
    = storage.positions (db (Scenario.w_flat false)).
Proof.
  assert (Hf : pos_side (self (Scenario.w_flat false)) = FLAT)
    by (vm_compute; reflexivity).
  destruct (unknown_symbol_no_entry env_unknown_symbol
              (Scenario.w_flat false) Hf eq_refl)
    as (_ & H1 & H2 & _).
  split; [exact H1|exact H2].
Defined.



(** X18.  Lines 227-233.  When the writes to table [positions] go through, the
    row of the bot's symbol mirrors the position in memory after every
    tick: LONG with its quantity and entry price, or no row when FLAT. *)
Theorem tick_keeps_mirror (env : Env) (w : World) :
  upsert_position_raises env = None →
  clear_position_raises env = None →
  mirrored w → mirrored (exec (tick env) w).
Proof.
  destruct w as [[] [tr ps lg] rq]. unfold mirrored.
  cbn [self db symbol pos_side pos_qty entry_price storage.positions].
  intros Hu Hc Hm. unfold_tick. rewrite Hu, Hc. reduce_world.
  repeat case_step.
  all: try assumption.
  all: first [apply lookup_insert_eq|apply lookup_delete_eq].
Qed.

Lemma tick_keeps_mirror_witness :
  mirrored (exec (tick (Scenario.env_ok Scenario.df_entry 100))
                 (Scenario.w_flat false)).
Proof.
  assert (Hm : mirrored (Scenario.w_flat false))
    by (vm_compute; reflexivity).
  exact (tick_keeps_mirror (Scenario.env_ok Scenario.df_entry 100)
           (Scenario.w_flat false) eq_refl eq_refl Hm).
Defined.

(** X19.  Lines 148-179 over [TrendPhases.compute].  With a threshold that is
    not negative, a tick whose window is shorter than the ADX warm-up (26
    bars with the default lengths) neither trades nor changes the
    position, whatever the bars are. *)
Theorem short_window_no_trade (env : Env) (w : World) (df : list Bar) :
  let w' := exec (tick env) w in
  get_klines env = Return df →
  0 <= TrendPhases.adx_thr (strat (self w)) →
  (length df + 1
   < TrendPhases.adx_len (strat (self w))
     + TrendPhases.adx_smooth (strat (self w)))%nat →
  same_position (self w) (self w')
  ∧ storage.trades (db w') = storage.trades (db w)
  ∧ storage.positions (db w') = storage.positions (db w)
  ∧ sent w w' = [GetKlines].
Proof.
  intros w'. subst w'. destruct w as [[] [tr ps lg] rq].
  unfold same_position. cbn [self strat]. intros Hk Hthr Hlen.
  unfold_tick. rewrite Hk. reduce_world. repeat case_step.
  all: norm_lists.
  all: try match goal with
           | H : TrendPhases.iloc_last _ = Return ?row |- _ =>
               destruct (iloc_last_warm_up _ _ _ _ Hthr Hlen H)
                 as (Hdh & Hdb & Hfh & _)
           end.
  all: try congruence.
  all: try match goal with
           | Hb : _ || _ = true |- _ => rewrite Hdb, Hfh in Hb; discriminate
           end.
  all: repeat split; reflexivity.
Qed.

Lemma short_window_no_trade_witness :
  same_position (self (Scenario.w_init false))
    (self (exec (tick (Scenario.env_ok (Scenario.rally 20) 100))
                (Scenario.w_init false)))
  ∧ storage.trades
      (db (exec (tick (Scenario.env_ok (Scenario.rally 20) 100))
                (Scenario.w_init false)))
    = storage.trades (db (Scenario.w_init false)).
Proof.
  assert (Hthr : 0 <= TrendPhases.adx_thr (strat (self (Scenario.w_init false))))
    by (vm_compute; discriminate).
  assert (Hlen : (length (Scenario.rally 20) + 1
                  < TrendPhases.adx_len (strat (self (Scenario.w_init false)))
                    + TrendPhases.adx_smooth
                        (strat (self (Scenario.w_init false))))%nat)
    by (vm_compute; lia).
  destruct (short_window_no_trade (Scenario.env_ok (Scenario.rally 20) 100)
              (Scenario.w_init false) (Scenario.rally 20) eq_refl Hthr Hlen)
    as (H1 & H2 & _).
  split; [exact H1|exact H2].
Defined.

(** X20.  Lines 130-137.  When the first fetch of the window raises, or returns
    no bar, [run] logs the start line and [Init klines failed] and
    returns: the loop is never entered, whatever the exchange would have
    answered afterwards. *)
Theorem init_failure_is_fatal (start : Env) (ticks : list Env) (w : World)
    (e : exn) :
  get_klines start = Raise e
  ∨ (get_klines start = Return [] ∧ e = IndexError) →
  run start ticks w
  = (Return tt,
     mkWorld (self w)
       (storage.log (Some (symbol (self w))) "ERROR" (msg_init_failed e)
          (storage.log (Some (symbol (self w))) "INFO"
             (msg_start (testnet (self w)) (dry_run (self w))) (db w)))
       (requests w ++ [GetKlines])).
Proof.
  destruct w as [b d rq]. unfold run.
  intros [Hk|[Hk ->]]; unfold_tick; rewrite Hk; reflexivity.
Qed.

Lemma init_failure_is_fatal_witness :
  (run (Scenario.env_ok [] 0) [Scenario.env_ok Scenario.df_entry 100]
       (Scenario.w_init false)).1 = Return tt
  ∧ storage.trades
      (db (exec (run (Scenario.env_ok [] 0)
                     [Scenario.env_ok Scenario.df_entry 100])
                (Scenario.w_init false))) = [].
Proof.
  unfold exec.
  rewrite (init_failure_is_fatal (Scenario.env_ok [] 0)
             [Scenario.env_ok Scenario.df_entry 100] (Scenario.w_init false)
             IndexError (or_intror (conj eq_refl eq_refl))).
  split; reflexivity.
Defined.

End Engine.

(** ** The ledger as the dashboard reads it *)

Section Ledger.
Import ledger.
Local Open Scope Q_scope.

Lemma truthy_symbol (s : string) : s ≠ EmptyString → truthy (Some s) = Some s.
Proof.
  intros Hs. unfold truthy. destruct (String.eqb_spec s EmptyString); congruence.
Qed.

(** X21.  [insert_trade] then [fetch_trades].  The row just written, with its
    notional of quantity times price, comes first in the list of its
    symbol and in the list of all trades; the list of any other symbol is
    as before; and an empty symbol lists all trades. *)
Theorem fetch_trades_after_insert (sym side : string) (qty price : Q)
    (pnl : option Q) (extra : string) (d : storage.db) :
  let row := storage.mkTrade sym side qty price (qty * price) pnl extra in
  let d' := storage.insert_trade sym side qty price pnl extra d in
  sym ≠ EmptyString →
  fetch_trades (Some sym) d' = row :: fetch_trades (Some sym) d
  ∧ fetch_trades None d' = row :: fetch_trades None d
  ∧ (∀ other, other ≠ EmptyString → other ≠ sym →
       fetch_trades (Some other) d' = fetch_trades (Some other) d)
  ∧ fetch_trades (Some EmptyString) d' = fetch_trades None d'.
Proof.
  intros row d' Hs. subst row d'. unfold fetch_trades, storage.insert_trade.
  cbn [storage.trades]. rewrite (truthy_symbol sym Hs).
  split; [|split; [|split]].
  - rewrite filter_app, filter_cons_True, filter_nil by reflexivity.
    apply reverse_snoc.
  - apply reverse_snoc.
  - intros other Ho Hne. rewrite (truthy_symbol other Ho).
    rewrite filter_app, filter_cons_False, filter_nil, app_nil_r
      by (cbn; congruence).
    reflexivity.
  - reflexivity.
Qed.

Lemma fetch_trades_after_insert_witness :
  fetch_trades (Some "BTCUSDT"%string)
    (storage.insert_trade "BTCUSDT" "BUY" 1 100 None "entry"
                          Scenario.no_trades)
  = [storage.mkTrade "BTCUSDT" "BUY" 1 100 (1 * 100) None "entry"].
Proof.
  destruct (fetch_trades_after_insert "BTCUSDT" "BUY" 1 100 None "entry"
              Scenario.no_trades ltac:(discriminate)) as [H _].
  exact H.
Defined.

(** X22.  [fetch_logs] with a limit that is not negative: when the limit
    fits 64 bits it returns at most [limit] lines, the first lines of what
    it returns without a limit; when it does not, binding it raises
    [OverflowError]. *)
Theorem fetch_logs_limit (symbol : option string) (limit : Z)
    (d : storage.db) :
  (0 <= limit)%Z →
  if (limit <? 2 ^ 63)%Z
  then ∃ rows every,
         fetch_logs symbol limit d = Return rows
         ∧ fetch_logs symbol (-1) d = Return every
         ∧ length rows = Nat.min (Z.to_nat limit) (length every)
         ∧ rows `prefix_of` every
  else fetch_logs symbol limit d = Raise OverflowError.
Proof.
  intros Hl. unfold fetch_logs, int64.
  replace (- 2 ^ 63 <=? limit)%Z with true by (symmetry; apply Z.leb_le; lia).
  change (- 2 ^ 63 <=? -1)%Z with true. change (-1 <? 2 ^ 63)%Z with true.
  cbn [andb]. destruct (limit <? 2 ^ 63)%Z; [|reflexivity].
  eexists _, _. split; [reflexivity|]. split; [reflexivity|].
  unfold select_logs, limit_rows.
  replace (limit <? 0)%Z with false by (symmetry; apply Z.ltb_ge; lia).
  change (-1 <? 0)%Z with true. cbv iota.
  destruct (truthy symbol); (split; [apply length_take|apply prefix_take]).
Qed.

Lemma fetch_logs_limit_witness :
  ∃ rows, fetch_logs None 2 (Bot.db (Scenario.w_long false)) = Return rows
          ∧ length rows = 2%nat.
Proof.
  pose proof (fetch_logs_limit None 2 (Bot.db (Scenario.w_long false))
                ltac:(lia)) as H.
  change (2 <? 2 ^ 63)%Z with true in H. cbv iota in H.
  destruct H as (rows & every & H1 & H2 & H3 & _).
  exists rows. split; [exact H1|].
  rewrite H3. vm_compute in H2. injection H2 as <-.
  vm_compute. reflexivity.
Defined.

(** X23.  [log] then [fetch_logs] with a positive limit that fits 64 bits.
    The line just logged comes first, followed by what a limit of one less
    returned before, both unfiltered and filtered on the line's own symbol;
    under a symbol other than its own the line does not show, and a line
    logged without a symbol shows under no symbol. *)
Theorem fetch_logs_after_log (sym : option string) (level : string)
    (m : message) (limit : Z) (d : storage.db) :
  let row := storage.mkLog sym level m in
  let d' := storage.log sym level m d in
  (0 < limit)%Z → (limit < 2 ^ 63)%Z →
  (∃ rest, fetch_logs None (limit - 1) d = Return rest
           ∧ fetch_logs None limit d' = Return (row :: rest))
  ∧ (∀ s, s ≠ EmptyString → sym = Some s →
       ∃ rest, fetch_logs sym (limit - 1) d = Return rest
               ∧ fetch_logs sym limit d' = Return (row :: rest))
  ∧ (∀ s, s ≠ EmptyString → sym ≠ Some s →
       fetch_logs (Some s) limit d' = fetch_logs (Some s) limit d).
Proof.
  intros row d' Hl Hu. subst row d'.
  unfold fetch_logs, int64.
  replace (- 2 ^ 63 <=? limit)%Z with true by (symmetry; apply Z.leb_le; lia).
  replace (limit <? 2 ^ 63)%Z with true by (symmetry; apply Z.ltb_lt; lia).
  replace (- 2 ^ 63 <=? limit - 1)%Z with true
    by (symmetry; apply Z.leb_le; lia).
  replace (limit - 1 <? 2 ^ 63)%Z with true
    by (symmetry; apply Z.ltb_lt; lia).
  cbn [andb]. unfold select_logs, limit_rows, storage.log.
  cbn [storage.logs].
  replace (limit <? 0)%Z with false by (symmetry; apply Z.ltb_ge; lia).
  replace (limit - 1 <? 0)%Z with false by (symmetry; apply Z.ltb_ge; lia).
  assert (Hn : Z.to_nat limit = S (Z.to_nat (limit - 1))) by lia.
  split; [|split].
  - eexists. split; [reflexivity|].
    cbn [truthy]. rewrite reverse_snoc, Hn. reflexivity.
  - intros s Hs ->. eexists. split; [reflexivity|].
    rewrite (truthy_symbol s Hs).
    rewrite filter_app, filter_cons_True, filter_nil by reflexivity.
    rewrite reverse_snoc, Hn. reflexivity.
  - intros s Hs Hne. rewrite (truthy_symbol s Hs).
    rewrite filter_app, filter_cons_False, filter_nil, app_nil_r
      by (cbn; congruence).
    reflexivity.
Qed.

Lemma fetch_logs_after_log_witness :
  fetch_logs None 1
    (storage.log (Some "BTCUSDT"%string) "INFO" msg_stopped
                 Scenario.no_trades)
  = Return [storage.mkLog (Some "BTCUSDT"%string) "INFO" msg_stopped].
Proof.
  destruct (fetch_logs_after_log (Some "BTCUSDT"%string) "INFO" msg_stopped
              1 Scenario.no_trades ltac:(lia) ltac:(lia))
    as [(rest & H1 & H2) _].
  rewrite H2. vm_compute in H1. injection H1 as <-. reflexivity.
Defined.

#[local] Instance by_symbol_total : Total by_symbol.
Proof. intros a b. apply String.leb_total. Qed.

Lemma elem_of_fetch_positions (d : storage.db) (k : string)
    (row : storage.position) :
  (k, row) ∈ fetch_positions d ↔ storage.positions d !! k = Some row.
Proof.
  unfold fetch_positions. rewrite merge_sort_Permutation.
  apply elem_of_map_to_list.
Qed.

(** X24.  [upsert_position] and [clear_position] then [fetch_positions].  After
    an upsert the symbol has exactly the row written, whatever row it had;
    the rows of other symbols are as before; after a clear the symbol has
    no row; and the list is ordered by symbol with one row per symbol. *)
Theorem fetch_positions_round_trip (sym side : string) (qty entry : Q)
    (d : storage.db) :
  let d' := storage.upsert_position sym side qty entry d in
  (∀ row, (sym, row) ∈ fetch_positions d'
          ↔ row = storage.mkPosition side qty entry)
  ∧ (∀ k row, k ≠ sym →
       ((k, row) ∈ fetch_positions d' ↔ (k, row) ∈ fetch_positions d)
       ∧ ((k, row) ∈ fetch_positions (storage.clear_position sym d)
          ↔ (k, row) ∈ fetch_positions d))
  ∧ (∀ row, (sym, row) ∉ fetch_positions (storage.clear_position sym d'))
  ∧ Sorted by_symbol (fetch_positions d')
  ∧ NoDup (fetch_positions d').*1.
Proof.
  intros d'. subst d'. split; [|split; [|split; [|split]]].
  - intros row. rewrite elem_of_fetch_positions. cbn [storage.upsert_position
      storage.positions]. rewrite lookup_insert_eq. split; congruence.
  - intros k row Hk. rewrite !elem_of_fetch_positions.
    cbn [storage.upsert_position storage.clear_position storage.positions].
    rewrite lookup_insert_ne, lookup_delete_ne by congruence. tauto.
  - intros row. rewrite elem_of_fetch_positions.
    cbn [storage.upsert_position storage.clear_position storage.positions].
    rewrite lookup_delete_eq. discriminate.
  - apply Sorted_merge_sort, _.
  - unfold fetch_positions. rewrite merge_sort_Permutation.
    apply NoDup_fst_map_to_list.
Qed.

Lemma fetch_positions_round_trip_witness :
  ("BTCUSDT"%string, storage.mkPosition "LONG" 1 100)
  ∈ fetch_positions
      (storage.upsert_position "BTCUSDT" "LONG" 1 100 Scenario.no_trades).
Proof.
  destruct (fetch_positions_round_trip "BTCUSDT" "LONG" 1 100
              Scenario.no_trades) as (H & _).
  apply H. reflexivity.
Defined.

End Ledger.
